(** * Digital-signature subsystem of chat-backend (src/signature)

    A shallow embedding of [KeyManager], [DocumentSigner] and
    [SignatureVerifier] (key_manager.py, document_signer.py,
    signature_verifier.py, models.py).

    Conventions of the model:
    - Python [bytes] are [list Z] with every element in [0, 256);
      Python [str] is [string] (ASCII text, so [str.encode('utf-8')] is
      the byte-wise code of every character);
    - the file system is a [gmap string entry] keyed by path; an entry is
      a regular file with its bytes or a directory;
    - SHA-256, hex encoding, base64, DER and PEM are written out;
    - RSA-PSS signing and verification, PEM key parsing and the datetime
      ISO conversions are parameters of the development (Section
      variables), with the one property of each the code relies on. *)

From stdpp Require Import gmap strings list.
From Stdlib Require Import ZArith Ascii String Lia.

Open Scope Z_scope.
Set Warnings "-register-all".

Definition bytes := list Z.

(** [s.encode('utf-8')] for an ASCII [s]. *)
Definition str_bytes (s : string) : bytes :=
  map (fun c => Z.of_N (N_of_ascii c)) (list_ascii_of_string s).

Definition byte_char (z : Z) : ascii := ascii_of_N (Z.to_N z).

(** ** Hex: [bytes.hex()] and [bytes.fromhex()] *)

Definition hex_digit (z : Z) : ascii :=
  if z <? 10 then ascii_of_N (Z.to_N (48 + z)) else ascii_of_N (Z.to_N (87 + z)).

Fixpoint hex_chars (b : bytes) : list ascii :=
  match b with
  | [] => []
  | x :: r => hex_digit (x / 16) :: hex_digit (x mod 16) :: hex_chars r
  end.

(** [bytes.hex()]: lowercase, two digits per byte. *)
Definition bytes_hex (b : bytes) : string := string_of_list_ascii (hex_chars b).

Definition hex_value (c : ascii) : option Z :=
  let n := Z.of_N (N_of_ascii c) in
  if (48 <=? n) && (n <=? 57) then Some (n - 48)
  else if (97 <=? n) && (n <=? 102) then Some (n - 87)
  else if (65 <=? n) && (n <=? 70) then Some (n - 55)
  else None.

(** ASCII whitespace, which [bytes.fromhex] skips between byte pairs. *)
Definition is_space (c : ascii) : bool :=
  let n := N_of_ascii c in
  (n =? 32)%N || (n =? 9)%N || (n =? 10)%N || (n =? 11)%N || (n =? 12)%N || (n =? 13)%N.

Fixpoint fromhex_chars (cs : list ascii) : option bytes :=
  match cs with
  | [] => Some []
  | c :: r =>
      if is_space c then fromhex_chars r else
      match r with
      | c2 :: r' =>
          match hex_value c, hex_value c2 with
          | Some hi, Some lo =>
              match fromhex_chars r' with
              | Some t => Some (hi * 16 + lo :: t)
              | None => None
              end
          | _, _ => None
          end
      | [] => None
      end
  end.

(** [bytes.fromhex(s)]; [None] is the [ValueError] it raises. *)
Definition bytes_fromhex (s : string) : option bytes := fromhex_chars (list_ascii_of_string s).

(** ** SHA-256 (FIPS 180-4), the [hashes.SHA256()] of [cryptography] *)

Module SHA256.

Definition w32 (x : Z) : Z := x mod 2 ^ 32.
Definition rotr (x : Z) (n : Z) : Z :=
  Z.lor (Z.shiftr x n) (w32 (Z.shiftl x (32 - n))).
Definition Sig0 (a : Z) := Z.lxor (Z.lxor (rotr a 2) (rotr a 13)) (rotr a 22).
Definition Sig1 (e : Z) := Z.lxor (Z.lxor (rotr e 6) (rotr e 11)) (rotr e 25).
Definition sig0 (x : Z) := Z.lxor (Z.lxor (rotr x 7) (rotr x 18)) (Z.shiftr x 3).
Definition sig1 (x : Z) := Z.lxor (Z.lxor (rotr x 17) (rotr x 19)) (Z.shiftr x 10).
Definition Ch (e f g : Z) := Z.lxor (Z.land e f) (Z.land (Z.lxor e (2 ^ 32 - 1)) g).
Definition Maj (a b c : Z) := Z.lxor (Z.lxor (Z.land a b) (Z.land a c)) (Z.land b c).

(** Round constants and initial hash value (FIPS 180-4), in decimal. *)
Definition K : list Z := [
  1116352408; 1899447441; 3049323471; 3921009573; 961987163; 1508970993;
  2453635748; 2870763221; 3624381080; 310598401; 607225278; 1426881987;
  1925078388; 2162078206; 2614888103; 3248222580; 3835390401; 4022224774;
  264347078; 604807628; 770255983; 1249150122; 1555081692; 1996064986;
  2554220882; 2821834349; 2952996808; 3210313671; 3336571891; 3584528711;
  113926993; 338241895; 666307205; 773529912; 1294757372; 1396182291;
  1695183700; 1986661051; 2177026350; 2456956037; 2730485921; 2820302411;
  3259730800; 3345764771; 3516065817; 3600352804; 4094571909; 275423344;
  430227734; 506948616; 659060556; 883997877; 958139571; 1322822218;
  1537002063; 1747873779; 1955562222; 2024104815; 2227730452; 2361852424;
  2428436474; 2756734187; 3204031479; 3329325298].

Definition H0 : list Z := [
  1779033703; 3144134277; 1013904242; 2773480762; 1359893119; 2600822924;
  528734635; 1541459225].

(** Message padding: 0x80, zeros up to 56 mod 64, 64-bit bit length. *)
Definition be_bytes (n : nat) (x : Z) : bytes :=
  map (fun i => Z.shiftr x (8 * Z.of_nat (n - 1 - i)) mod 256) (seq 0 n).

Definition pad (m : bytes) : bytes :=
  let l := List.length m in
  let z := ((119 - (l mod 64)) mod 64)%nat in
  m ++ [0x80] ++ repeat 0 z ++ be_bytes 8 (8 * Z.of_nat l).

Fixpoint chunks64 (fuel : nat) (l : bytes) : list bytes :=
  match fuel with
  | O => []
  | S f => match l with [] => [] | _ => firstn 64 l :: chunks64 f (skipn 64 l) end
  end.

Fixpoint be_words (l : bytes) : list Z :=
  match l with
  | a :: b :: c :: d :: r => (a * 2 ^ 24 + b * 2 ^ 16 + c * 2 ^ 8 + d) :: be_words r
  | _ => []
  end.

(** Message schedule, accumulated newest first. *)
Fixpoint schedule (n : nat) (acc : list Z) : list Z :=
  match n with
  | O => acc
  | S k =>
      let w := w32 (sig1 (nth 1 acc 0) + nth 6 acc 0 + sig0 (nth 14 acc 0) + nth 15 acc 0) in
      schedule k (w :: acc)
  end.

Definition round (st : list Z) (kw : Z * Z) : list Z :=
  match st with
  | [a; b; c; d; e; f; g; h] =>
      let t1 := w32 (h + Sig1 e + Ch e f g + fst kw + snd kw) in
      let t2 := w32 (Sig0 a + Maj a b c) in
      [w32 (t1 + t2); a; b; c; w32 (d + t1); e; f; g]
  | _ => st
  end.

Definition compress (hs : list Z) (block : bytes) : list Z :=
  let ws := rev (schedule 48 (rev (be_words block))) in
  let st := fold_left round (combine K ws) hs in
  map (fun p => w32 (fst p + snd p)) (combine hs st).

Definition digest (m : bytes) : bytes :=
  let p := pad m in
  flat_map (be_bytes 4) (fold_left compress (chunks64 (List.length p) p) H0).

End SHA256.

(** [hashes.Hash(hashes.SHA256())] fed with [m], finalised. *)
Definition sha256 (m : bytes) : bytes := SHA256.digest m.

(** ** Python values that go through [json] *)

(** The values of [dict]s, [str]s, [int]s, lists, [None] and booleans
    that [SignatureMetadata.to_dict] and [json.load] produce; [JOpaque]
    is any other Python object, which [json.dump] refuses. A [dict] is
    the list of its items in insertion order. *)
Inductive json : Type :=
| JNull
| JBool (b : bool)
| JInt (z : Z)
| JStr (s : string)
| JArr (l : list json)
| JObj (kvs : list (string * json))
| JOpaque.

(** Python truthiness ([if not x]). *)
Definition json_truthy (j : json) : bool :=
  match j with
  | JNull => false
  | JBool b => b
  | JInt z => negb (z =? 0)
  | JStr s => negb (String.eqb s "")
  | JArr l => match l with [] => false | _ => true end
  | JObj kvs => match kvs with [] => false | _ => true end
  | JOpaque => true
  end.

(** [d[k]] / [d.get(k)] on a dict: the last binding of [k] wins, as for
    the dict that [json.load] builds from an object. *)
Definition dict_lookup (k : string) (kvs : list (string * json)) : option json :=
  fold_left (fun acc kv => if String.eqb (fst kv) k then Some (snd kv) else acc) kvs None.

(** [d[k] = v]: a present key keeps its position. *)
Fixpoint dict_set (k : string) (v : json) (kvs : list (string * json)) : list (string * json) :=
  match kvs with
  | [] => [(k, v)]
  | (k', v') :: r => if String.eqb k' k then (k', v) :: r else (k', v') :: dict_set k v r
  end.

(** [{**a, **b}]. *)
Definition dict_merge (a b : list (string * json)) : list (string * json) :=
  fold_left (fun acc kv => dict_set (fst kv) (snd kv) acc) b a.

(** *** The serialised form written by [json.dump] and read by [json.load]

    The byte format stands in for JSON text: each value is a tag byte
    followed by its contents, strings and containers are 1-prefixed items
    closed by 0. As with [json.dump], output is produced as the value is
    walked and stops at the first value that cannot be serialised (the
    [bool] is [false] then: the [TypeError]). *)

Fixpoint enc_pos (p : positive) : bytes :=
  match p with
  | xH => [0]
  | xO q => 1 :: enc_pos q
  | xI q => 2 :: enc_pos q
  end.

Definition enc_Z (z : Z) : bytes :=
  match z with
  | Z0 => [0]
  | Zpos p => 1 :: enc_pos p
  | Zneg p => 2 :: enc_pos p
  end.

Fixpoint enc_chars (cs : list ascii) : bytes :=
  match cs with
  | [] => [0]
  | c :: r => 1 :: Z.of_N (N_of_ascii c) :: enc_chars r
  end.

Definition enc_str (s : string) : bytes := enc_chars (list_ascii_of_string s).

Fixpoint enc (j : json) : bytes * bool :=
  match j with
  | JNull => ([0], true)
  | JBool b => ([1; if b then 1 else 0], true)
  | JInt z => (2 :: enc_Z z, true)
  | JStr s => (3 :: enc_str s, true)
  | JArr l =>
      let r := (fix go (l : list json) : bytes * bool :=
                  match l with
                  | [] => ([0], true)
                  | x :: t =>
                      let (bx, okx) := enc x in
                      if okx then let (bt, okt) := go t in (1 :: bx ++ bt, okt)
                      else (1 :: bx, false)
                  end) l in
      (4 :: fst r, snd r)
  | JObj kvs =>
      let r := (fix go (kvs : list (string * json)) : bytes * bool :=
                  match kvs with
                  | [] => ([0], true)
                  | (k, v) :: t =>
                      let (bv, okv) := enc v in
                      if okv then let (bt, okt) := go t in (1 :: enc_str k ++ bv ++ bt, okt)
                      else (1 :: enc_str k ++ bv, false)
                  end) kvs in
      (5 :: fst r, snd r)
  | JOpaque => ([], false)
  end.

(** The item loops of [enc], named. *)
Fixpoint enc_items (l : list json) : bytes * bool :=
  match l with
  | [] => ([0], true)
  | x :: t =>
      let (bx, okx) := enc x in
      if okx then let (bt, okt) := enc_items t in (1 :: bx ++ bt, okt)
      else (1 :: bx, false)
  end.

Fixpoint enc_pairs (kvs : list (string * json)) : bytes * bool :=
  match kvs with
  | [] => ([0], true)
  | (k, v) :: t =>
      let (bv, okv) := enc v in
      if okv then let (bt, okt) := enc_pairs t in (1 :: enc_str k ++ bv ++ bt, okt)
      else (1 :: enc_str k ++ bv, false)
  end.

Fixpoint dec_pos (b : bytes) : option (positive * bytes) :=
  match b with
  | 0 :: r => Some (xH, r)
  | 1 :: r => match dec_pos r with Some (p, r') => Some (xO p, r') | None => None end
  | 2 :: r => match dec_pos r with Some (p, r') => Some (xI p, r') | None => None end
  | _ => None
  end.

Definition dec_Z (b : bytes) : option (Z * bytes) :=
  match b with
  | 0 :: r => Some (Z0, r)
  | 1 :: r => match dec_pos r with Some (p, r') => Some (Zpos p, r') | None => None end
  | 2 :: r => match dec_pos r with Some (p, r') => Some (Zneg p, r') | None => None end
  | _ => None
  end.

Fixpoint dec_chars (b : bytes) : option (list ascii * bytes) :=
  match b with
  | 0 :: r => Some ([], r)
  | 1 :: c :: r =>
      match dec_chars r with
      | Some (cs, r') => Some (ascii_of_N (Z.to_N c) :: cs, r')
      | None => None
      end
  | _ => None
  end.

Definition dec_str (b : bytes) : option (string * bytes) :=
  match dec_chars b with
  | Some (cs, r) => Some (string_of_list_ascii cs, r)
  | None => None
  end.

Fixpoint dec (fuel : nat) (b : bytes) : option (json * bytes) :=
  match fuel with
  | O => None
  | S f =>
      match b with
      | 0 :: r => Some (JNull, r)
      | 1 :: x :: r => Some (JBool (negb (x =? 0)), r)
      | 2 :: r => match dec_Z r with Some (z, r') => Some (JInt z, r') | None => None end
      | 3 :: r => match dec_str r with Some (s, r') => Some (JStr s, r') | None => None end
      | 4 :: r => match dec_arr f r with Some (l, r') => Some (JArr l, r') | None => None end
      | 5 :: r => match dec_obj f r with Some (l, r') => Some (JObj l, r') | None => None end
      | _ => None
      end
  end
with dec_arr (fuel : nat) (b : bytes) : option (list json * bytes) :=
  match fuel with
  | O => None
  | S f =>
      match b with
      | 0 :: r => Some ([], r)
      | 1 :: r =>
          match dec f r with
          | Some (x, r') =>
              match dec_arr f r' with Some (l, r'') => Some (x :: l, r'') | None => None end
          | None => None
          end
      | _ => None
      end
  end
with dec_obj (fuel : nat) (b : bytes) : option (list (string * json) * bytes) :=
  match fuel with
  | O => None
  | S f =>
      match b with
      | 0 :: r => Some ([], r)
      | 1 :: r =>
          match dec_str r with
          | Some (k, r1) =>
              match dec f r1 with
              | Some (v, r2) =>
                  match dec_obj f r2 with Some (l, r3) => Some ((k, v) :: l, r3) | None => None end
              | None => None
              end
          | None => None
          end
      | _ => None
      end
  end.

(** [json.load]: the whole file must be one value ("Extra data" otherwise). *)
Definition json_load (b : bytes) : option json :=
  match dec (List.length b) b with
  | Some (j, []) => Some j
  | _ => None
  end.

(** ** [pathlib.Path] and [str] helpers (POSIX paths) *)

Fixpoint split_slash (cs : list ascii) (cur : list ascii) : list string :=
  match cs with
  | [] => [string_of_list_ascii (rev cur)]
  | c :: r =>
      if Ascii.eqb c "/"%char then string_of_list_ascii (rev cur) :: split_slash r []
      else split_slash r (c :: cur)
  end.

(** [Path(p).name]: the last component, after dropping empty and [.]
    components. *)
Definition path_name (p : string) : string :=
  let parts := List.filter (fun s => negb (String.eqb s "" || String.eqb s ".")) (split_slash (list_ascii_of_string p) []) in
  List.last parts "".

Fixpoint rfind_dot (cs : list ascii) (i : nat) (best : option nat) : option nat :=
  match cs with
  | [] => best
  | c :: r => rfind_dot r (S i) (if Ascii.eqb c "."%char then Some i else best)
  end.

(** [Path(p).suffix]: from the last dot of the name, unless that dot
    starts or ends the name. *)
Definition path_suffix (p : string) : string :=
  let name := path_name p in
  match rfind_dot (list_ascii_of_string name) 0 None with
  | Some i => if (0 <? i)%nat && (i <? String.length name - 1)%nat
              then substring i (String.length name - i) name else ""
  | None => ""
  end.

Definition ascii_lower (c : ascii) : ascii :=
  let n := N_of_ascii c in
  if (65 <=? n)%N && (n <=? 90)%N then ascii_of_N (n + 32) else c.

(** [str.lower()] on ASCII text. *)
Definition str_lower (s : string) : string :=
  string_of_list_ascii (map ascii_lower (list_ascii_of_string s)).

(** [s.endswith(t)]. *)
Definition ends_with (t s : string) : bool :=
  (String.length t <=? String.length s)%nat &&
  String.eqb (substring (String.length s - String.length t) (String.length t) s) t.

(** [s[:-4]]. *)
Definition drop_last4 (s : string) : string := substring 0 (String.length s - 4) s.

(** ** RSA public keys, DER and PEM

    [public_bytes(Encoding.PEM, PublicFormat.SubjectPublicKeyInfo)] of an
    RSA public key: the DER SubjectPublicKeyInfo, base64 in lines of 64
    characters between the PEM armour lines. *)

Record rsa_pub := { rsa_n : Z; rsa_e : Z }.
Record rsa_priv := { priv_public : rsa_pub; rsa_d : Z }.

Fixpoint be_digits (fuel : nat) (z : Z) (acc : bytes) : bytes :=
  match fuel with
  | O => acc
  | S f => if z <=? 0 then acc else be_digits f (z / 256) (z mod 256 :: acc)
  end.

(** Minimal big-endian bytes of a non-negative integer. *)
Definition be_of_Z (z : Z) : bytes := be_digits (Z.to_nat (Z.log2 z + 1)) z [].

Definition der_len (n : nat) : bytes :=
  if (n <? 128)%nat then [Z.of_nat n]
  else let b := be_of_Z (Z.of_nat n) in (128 + Z.of_nat (List.length b)) :: b.

Definition der_tlv (tag : Z) (content : bytes) : bytes :=
  tag :: der_len (List.length content) ++ content.

Definition der_int (z : Z) : bytes :=
  let b := be_of_Z z in
  let b' := match b with [] => [0] | h :: _ => if 128 <=? h then 0 :: b else b end in
  der_tlv 2 b'.

(** AlgorithmIdentifier { rsaEncryption, NULL }. *)
Definition rsa_algorithm_id : bytes :=
  [0x30; 0x0d; 0x06; 0x09; 0x2a; 0x86; 0x48; 0x86; 0xf7; 0x0d; 0x01; 0x01; 0x01; 0x05; 0x00].

Definition der_rsa_public_key (k : rsa_pub) : bytes :=
  der_tlv 0x30 (der_int (rsa_n k) ++ der_int (rsa_e k)).

(** DER-encoded SubjectPublicKeyInfo. *)
Definition spki_der (k : rsa_pub) : bytes :=
  der_tlv 0x30 (rsa_algorithm_id ++ der_tlv 0x03 (0 :: der_rsa_public_key k)).

Definition b64_char (i : Z) : ascii :=
  if i <? 26 then ascii_of_N (Z.to_N (65 + i))
  else if i <? 52 then ascii_of_N (Z.to_N (71 + i))
  else if i <? 62 then ascii_of_N (Z.to_N (i - 4))
  else if i =? 62 then "+"%char else "/"%char.

Fixpoint b64_chars (b : bytes) : list ascii :=
  match b with
  | x :: y :: z :: r =>
      b64_char (x / 4) :: b64_char (x mod 4 * 16 + y / 16)
        :: b64_char (y mod 16 * 4 + z / 64) :: b64_char (z mod 64) :: b64_chars r
  | [x; y] => [b64_char (x / 4); b64_char (x mod 4 * 16 + y / 16); b64_char (y mod 16 * 4); "="%char]
  | [x] => [b64_char (x / 4); b64_char (x mod 4 * 16); "="%char; "="%char]
  | [] => []
  end.

Fixpoint pem_lines (fuel : nat) (cs : list ascii) : list ascii :=
  match fuel with
  | O => []
  | S f =>
      match cs with
      | [] => []
      | _ => firstn 64 cs ++ ["010"%char] ++ pem_lines f (skipn 64 cs)
      end
  end.

Definition pem_armor (label : string) (der : bytes) : bytes :=
  let body := b64_chars der in
  str_bytes ("-----BEGIN " ++ label ++ "-----" ++ String "010" ""
             ++ string_of_list_ascii (pem_lines (List.length body) body)
             ++ "-----END " ++ label ++ "-----" ++ String "010" "")%string.

Definition pem_spki (k : rsa_pub) : bytes := pem_armor "PUBLIC KEY" (spki_der k).

(** [KeyManager]: the key size and the two optional keys. *)
Record KeyManager := {
  key_size : Z;
  private_key : option rsa_priv;
  public_key : option rsa_pub }.

(** [KeyManager()] (default key size 2048). *)
Definition KeyManager_new : KeyManager :=
  {| key_size := 2048; private_key := None; public_key := None |}.

Definition set_public_key (m : KeyManager) (k : rsa_pub) : KeyManager :=
  {| key_size := key_size m; private_key := private_key m; public_key := Some k |}.

(** [KeyManager.get_public_key_fingerprint]: hex SHA-256 of the PEM
    SubjectPublicKeyInfo bytes; [public_bytes] does not fail on a loaded
    key, so the [except] branch is unreachable here. *)
Definition get_public_key_fingerprint (m : KeyManager) : option string :=
  match public_key m with
  | None => None
  | Some k => Some (bytes_hex (sha256 (pem_spki k)))
  end.

(** ** Models (models.py) *)

Inductive DocumentType := TXT | PDF | ZIP.

Definition DocumentType_value (t : DocumentType) : string :=
  match t with TXT => "txt" | PDF => "pdf" | ZIP => "zip" end.

Inductive SignatureStatus := VALID | INVALID | TAMPERED | EXPIRED | KEY_MISMATCH.

Record SignatureRequest := {
  document_path : string;
  signer_name : string;
  signer_email : string;
  output_path : option string;
  additional_info : list (string * json) }.

Record VerificationRequest := {
  signed_document_path : string;
  original_document_path : option string;
  public_key_path : option string }.

(** Python exceptions raised inside the operations. *)
Inductive py_exn :=
| FileNotFoundError (p : string)
| IsADirectoryError (p : string)
| KeyError (k : string)
| TypeError (msg : string)
| ValueError (msg : string)
| AttributeError (msg : string)
| FileExistsError (p : string)
| NotADirectoryError (p : string).

(** [str(e)]. *)
Definition str_exn (e : py_exn) : string :=
  match e with
  | FileNotFoundError p => "[Errno 2] No such file or directory: '" ++ p ++ "'"
  | IsADirectoryError p => "[Errno 21] Is a directory: '" ++ p ++ "'"
  | FileExistsError p => "[Errno 17] File exists: '" ++ p ++ "'"
  | NotADirectoryError p => "[Errno 20] Not a directory: '" ++ p ++ "'"
  | KeyError k => "'" ++ k ++ "'"
  | TypeError m | ValueError m | AttributeError m => m
  end%string.

(** [KeyManager(key_size)]. *)
Definition KeyManager_init (ks : Z) : py_exn + KeyManager :=
  if existsb (Z.eqb ks) [2048; 3072; 4096]
  then inr {| key_size := ks; private_key := None; public_key := None |}
  else inl (ValueError "El tamaño de clave debe ser 2048, 3072 o 4096 bits").

(** A file-system entry. *)
Inductive entry := EFile (b : bytes) | EDir.

(** Observable calls: the document-hash routine and the cryptographic
    verify step. *)
Inductive event := EvHash (p : string) | EvVerify.

(** [DocumentSigner._detect_document_type]. *)
Definition detect_document_type (p : string) : option DocumentType :=
  let ext := str_lower (path_suffix p) in
  if String.eqb ext ".txt" then Some TXT
  else if String.eqb ext ".pdf" then Some PDF
  else if String.eqb ext ".zip" then Some ZIP
  else None.

(** [if x:] on an optional string. *)
Definition nonempty (o : option string) : option string :=
  match o with Some s => if String.eqb s "" then None else Some s | None => None end.

(** The key operations of [cryptography]'s backend used by the key
    files: [rsa.generate_private_key(public_exponent=65537, key_size=n)]
    drawing from the random source; [private_bytes(Encoding.PEM,
    PrivateFormat.PKCS8, enc)], where [None] is [NoEncryption()] and
    [Some pw] is [BestAvailableEncryption(pw)], whose salt comes from the
    random source; and [serialization.load_pem_private_key(pem,
    password)], where [None] is any of the exceptions it raises
    (malformed data, wrong or missing password). *)
Record Backend := {
  rsa_generate : Z -> Z -> rsa_priv;
  private_pem : rsa_priv -> option bytes -> Z -> bytes;
  load_pem_private_key : bytes -> option bytes -> option rsa_priv }.

(** ** A concrete instance of the primitives

    Used to run the model on examples: dates are their ISO strings, a
    signature carries a salt byte, the signer's modulus and the message,
    and the PEM parser recognises the keys of a fixed list. *)
Module Toy.

Definition datetime := string.
Definition isoformat (d : datetime) : string := d.
Definition fromisoformat (s : string) : option datetime := Some s.

Definition pss_sign (sk : rsa_priv) (salt : Z) (m : bytes) : bytes :=
  salt mod 256 :: be_of_Z (rsa_n (priv_public sk)) ++ m.

Definition pss_verify (pk : rsa_pub) (sg : bytes) (m : bytes) : bool :=
  match sg with
  | _ :: r => bool_decide (r = be_of_Z (rsa_n pk) ++ m)
  | [] => false
  end.

Definition load_pem_public_key (known : list rsa_pub) (b : bytes) : option rsa_pub :=
  List.find (fun k => bool_decide (pem_spki k = b)) known.

(** A key backend: the generated key has a fixed modulus and the random
    value as private exponent; its private "PEM" lists the modulus, the
    exponent and the private exponent, followed by the password when the
    key is encrypted, and it loads only with that password. *)
Definition backend : Backend := {|
  rsa_generate := fun _ r => {| priv_public := {| rsa_n := 3233; rsa_e := 65537 |}; rsa_d := r |};
  private_pem := fun sk enc _ =>
    [rsa_n (priv_public sk); rsa_e (priv_public sk); rsa_d sk] ++
    match enc with Some pw => pw | None => [] end;
  load_pem_private_key := fun b pw =>
    match b with
    | n :: e :: d :: rest =>
        if bool_decide (rest = match pw with Some p => p | None => [] end)
        then Some {| priv_public := {| rsa_n := n; rsa_e := e |}; rsa_d := d |}
        else None
    | _ => None
    end |}.

End Toy.

(** * The signer and the verifier *)

Section Signature.

(** [datetime] with [isoformat] and [datetime.fromisoformat] ([None] is
    its [ValueError]). *)
Context {datetime : Type}.
Variable isoformat : datetime -> string.
Variable fromisoformat : string -> option datetime.

(** RSA-PSS (MGF1-SHA256, maximal salt) as used by [private_key.sign]
    and [public_key.verify]: the signature depends on the salt drawn from
    the random source; [pss_verify] is [false] where [verify] raises
    [InvalidSignature]. *)
Variable pss_sign : rsa_priv -> Z -> bytes -> bytes.
Variable pss_verify : rsa_pub -> bytes -> bytes -> bool.

(** [serialization.load_pem_public_key]; [None] is the [ValueError]. *)
Variable load_pem_public_key : bytes -> option rsa_pub.

(** [SignatureMetadata]. Its fields hold whatever [from_dict] finds in
    the sidecar, so all but the date are Python values. *)
Record SignatureMetadata := {
  meta_signer_name : json;
  meta_signer_email : json;
  signature_date : datetime;
  document_hash : json;
  signature_algorithm : json;
  key_fingerprint : json;
  meta_additional_info : json }.

Record SignatureResult := {
  success : bool;
  message : string;
  status : option SignatureStatus;
  metadata : option SignatureMetadata;
  signature_data : option bytes;
  signed_file_path : option string;
  error : option string }.

Definition failure (msg : string) (st : option SignatureStatus)
    (md : option SignatureMetadata) (err : string) : SignatureResult :=
  {| success := false; message := msg; status := st; metadata := md;
     signature_data := None; signed_file_path := None; error := Some err |}.

(** [SignatureMetadata.to_dict]. *)
Definition to_dict (md : SignatureMetadata) : json :=
  JObj [("signer_name", meta_signer_name md);
        ("signer_email", meta_signer_email md);
        ("signature_date", JStr (isoformat (signature_date md)));
        ("document_hash", document_hash md);
        ("signature_algorithm", signature_algorithm md);
        ("key_fingerprint", key_fingerprint md);
        ("additional_info", meta_additional_info md)].

(** [d[k]]. *)
Definition getitem (d : json) (k : string) : py_exn + json :=
  match d with
  | JObj kvs => match dict_lookup k kvs with Some v => inr v | None => inl (KeyError k) end
  | JArr _ => inl (TypeError "list indices must be integers or slices, not str")
  | JStr _ => inl (TypeError "string indices must be integers, not 'str'")
  | JNull => inl (TypeError "'NoneType' object is not subscriptable")
  | JBool _ => inl (TypeError "'bool' object is not subscriptable")
  | JInt _ => inl (TypeError "'int' object is not subscriptable")
  | JOpaque => inl (TypeError "'object' object is not subscriptable")
  end.

(** [d.get(k, default)]. *)
Definition dict_get (d : json) (k : string) (default : json) : py_exn + json :=
  match d with
  | JObj kvs => inr (match dict_lookup k kvs with Some v => v | None => default end)
  | _ => inl (AttributeError "object has no attribute 'get'")
  end.

Definition py_fromisoformat (v : json) : py_exn + datetime :=
  match v with
  | JStr s => match fromisoformat s with
              | Some d => inr d
              | None => inl (ValueError ("Invalid isoformat string: '" ++ s ++ "'")%string)
              end
  | _ => inl (TypeError "fromisoformat: argument must be str")
  end.

Definition py_fromhex (v : json) : py_exn + bytes :=
  match v with
  | JStr s => match bytes_fromhex s with
              | Some b => inr b
              | None => inl (ValueError "non-hexadecimal number found in fromhex() arg")
              end
  | _ => inl (TypeError "fromhex() argument must be str")
  end.

Definition sum_bind {A B : Type} (x : py_exn + A) (k : A -> py_exn + B) : py_exn + B :=
  match x with inl e => inl e | inr a => k a end.

Local Notation "x <-? m ;; k" := (sum_bind m (fun x => k)) (at level 100, m at next level, right associativity).

(** [SignatureMetadata.from_dict]: keyword arguments evaluated in order. *)
Definition from_dict (data : json) : py_exn + SignatureMetadata :=
  sn <-? getitem data "signer_name" ;;
  se <-? getitem data "signer_email" ;;
  sd <-? getitem data "signature_date" ;;
  d <-? py_fromisoformat sd ;;
  dh <-? getitem data "document_hash" ;;
  sa <-? dict_get data "signature_algorithm" (JStr "RSA-PSS with SHA-256") ;;
  kf <-? dict_get data "key_fingerprint" JNull ;;
  ai <-? dict_get data "additional_info" (JObj []) ;;
  inr {| meta_signer_name := sn; meta_signer_email := se; signature_date := d;
         document_hash := dh; signature_algorithm := sa; key_fingerprint := kf;
         meta_additional_info := ai |}.

(** ** State, effects and exceptions

    The state is the file system, the [KeyManager] of the object whose
    method runs ([self.key_manager]), the clock read by [datetime.now()]
    and the random source of the PSS salt. A computation also emits the
    observable calls it makes. *)
Record st := {
  fs : gmap string entry;
  km : KeyManager;
  clock : datetime;
  entropy : Z }.

Definition set_fs (s : st) (f : gmap string entry) : st :=
  {| fs := f; km := km s; clock := clock s; entropy := entropy s |}.
Definition set_km (s : st) (m : KeyManager) : st :=
  {| fs := fs s; km := m; clock := clock s; entropy := entropy s |}.

Definition M (A : Type) : Type := st -> st * list event * (py_exn + A).

Definition ret {A} (x : A) : M A := fun s => (s, [], inr x).
Definition bind {A B} (m : M A) (k : A -> M B) : M B := fun s =>
  match m s with
  | (s1, ev1, inl e) => (s1, ev1, inl e)
  | (s1, ev1, inr x) => let '(s2, ev2, r) := k x s1 in (s2, ev1 ++ ev2, r)
  end.
Definition raise {A} (e : py_exn) : M A := fun s => (s, [], inl e).
Definition lift {A} (x : py_exn + A) : M A := fun s => (s, [], x).
Definition gets {A} (f : st -> A) : M A := fun s => (s, [], inr (f s)).
Definition modify (f : st -> st) : M unit := fun s => (f s, [], inr tt).
Definition emit (ev : event) : M unit := fun s => (s, [ev], inr tt).
(** [try: m except Exception as e: h(e)]. *)
Definition try_catch {A} (m : M A) (h : py_exn -> M A) : M A := fun s =>
  match m s with
  | (s1, ev1, inl e) => let '(s2, ev2, r) := h e s1 in (s2, ev1 ++ ev2, r)
  | ok => ok
  end.

Local Notation "x <- m ;; k" := (bind m (fun x => k)) (at level 100, m at next level, right associativity).

(** [os.path.exists(p)]. *)
Definition path_exists (p : string) : M bool :=
  gets (fun s => match fs s !! p with Some _ => true | None => false end).

(** [open(p, 'rb').read()]. *)
Definition read_file (p : string) : M bytes := fun s =>
  match fs s !! p with
  | Some (EFile b) => (s, [], inr b)
  | Some EDir => (s, [], inl (IsADirectoryError p))
  | None => (s, [], inl (FileNotFoundError p))
  end.

(** [_calculate_document_hash] (the same in the signer and the
    verifier): hex SHA-256 of the file's bytes. *)
Definition calculate_document_hash (p : string) : M string :=
  _ <- emit (EvHash p) ;;
  b <- read_file p ;;
  ret (bytes_hex (sha256 b)).

(** [KeyManager.load_public_key]. *)
Definition load_public_key (path : string) : M (option rsa_pub) :=
  try_catch
    (ex <- path_exists path ;;
     if negb ex then ret None else
     pem <- read_file path ;;
     match load_pem_public_key pem with
     | Some k => _ <- modify (fun s => set_km s (set_public_key (km s) k)) ;; ret (Some k)
     | None => raise (ValueError "Could not deserialize key data.")
     end)
    (fun _ => ret None).

(** ** DocumentSigner (document_signer.py) *)

(** [_create_signature]: RSA-PSS over the UTF-8 bytes of the hex hash. *)
Definition create_signature (h : string) : M bytes :=
  m <- gets km ;;
  match private_key m with
  | None => raise (AttributeError "'NoneType' object has no attribute 'sign'")
  | Some sk => salt <- gets entropy ;; ret (pss_sign sk salt (str_bytes h))
  end.

(** [_get_signature_file_path]. *)
Definition get_signature_file_path (p : string) : string := (p ++ ".sig")%string.

(** [_save_signature]: [open(path, 'w')] truncates the file, then
    [json.dump] writes as it serialises. *)
Definition save_signature (path : string) (sigd : bytes) (md : SignatureMetadata) : M unit :=
  let pkg := JObj [("signature", JStr (bytes_hex sigd)); ("metadata", to_dict md)] in
  cur <- gets (fun s => fs s !! path) ;;
  match cur with
  | Some EDir => raise (IsADirectoryError path)
  | _ =>
      let '(out, ok) := enc pkg in
      _ <- modify (fun s => set_fs s (<[path := EFile out]> (fs s))) ;;
      if ok then ret tt else raise (TypeError "Object of type object is not JSON serializable")
  end.

(** [DocumentSigner.sign_document]. *)
Definition sign_document (req : SignatureRequest) : M SignatureResult :=
  let p := document_path req in
  try_catch
    (ex <- path_exists p ;;
     if negb ex then
       ret (failure "Documento no encontrado" None None ("El archivo " ++ p ++ " no existe")%string)
     else
     match detect_document_type p with
     | None =>
         ret (failure "Tipo de documento no soportado" None None "Solo se soportan archivos .txt, .pdf y .zip")
     | Some dt =>
         h <- calculate_document_hash p ;;
         now <- gets clock ;;
         fp <- gets (fun s => get_public_key_fingerprint (km s)) ;;
         let md := {| meta_signer_name := JStr (signer_name req);
                      meta_signer_email := JStr (signer_email req);
                      signature_date := now;
                      document_hash := JStr h;
                      signature_algorithm := JStr "RSA-PSS with SHA-256";
                      key_fingerprint := match fp with Some f => JStr f | None => JNull end;
                      meta_additional_info :=
                        JObj (dict_merge [("document_type", JStr (DocumentType_value dt));
                                          ("document_name", JStr (path_name p))]
                                         (additional_info req)) |} in
         sigd <- create_signature h ;;
         let sfp := match nonempty (output_path req) with
                    | Some o => o
                    | None => get_signature_file_path p
                    end in
         _ <- save_signature sfp sigd md ;;
         ret {| success := true; message := "Documento firmado exitosamente";
                status := Some VALID; metadata := Some md; signature_data := Some sigd;
                signed_file_path := Some sfp; error := None |}
     end)
    (fun e => ret (failure "Error al firmar documento" None None (str_exn e))).

Definition batch_request (p name email : string) : SignatureRequest :=
  {| document_path := p; signer_name := name; signer_email := email;
     output_path := None; additional_info := [] |}.

(** [DocumentSigner.sign_batch]. *)
Fixpoint sign_batch (paths : list string) (name email : string) : M (list SignatureResult) :=
  match paths with
  | [] => ret []
  | p :: ps =>
      r <- sign_document (batch_request p name email) ;;
      rs <- sign_batch ps name email ;;
      ret (r :: rs)
  end.

(** ** SignatureVerifier (signature_verifier.py) *)

(** [SignatureVerifier.__init__]. *)
Definition verifier_init (pkp : option string) : M unit :=
  _ <- modify (fun s => set_km s KeyManager_new) ;;
  match nonempty pkp with
  | Some p => ex <- path_exists p ;; if ex then _ <- load_public_key p ;; ret tt else ret tt
  | None => ret tt
  end.

(** [_load_signature_file]. *)
Definition load_signature_file (p : string) : M (option json) :=
  try_catch
    (ex <- path_exists p ;;
     if negb ex then ret None else
     b <- read_file p ;;
     match json_load b with
     | Some j => ret (Some j)
     | None => raise (ValueError "Expecting value")
     end)
    (fun _ => ret None).

(** [_verify_signature]. *)
Definition verify_signature (h : string) (sigd : bytes) : M bool :=
  _ <- emit EvVerify ;;
  m <- gets km ;;
  match public_key m with
  | Some pk => ret (pss_verify pk sigd (str_bytes h))
  | None => ret false
  end.

(** [current_hash != metadata.document_hash], negated. *)
Definition str_eq_json (s : string) (j : json) : bool :=
  match j with JStr t => String.eqb s t | _ => false end.

Definition verify_paths (req : VerificationRequest) : string * string :=
  let sdp := signed_document_path req in
  if ends_with ".sig" sdp then
    (sdp, match nonempty (original_document_path req) with Some o => o | None => drop_last4 sdp end)
  else ((sdp ++ ".sig")%string, sdp).

(** [SignatureVerifier.verify_document]. *)
Definition verify_document (req : VerificationRequest) : M SignatureResult :=
  let sdp := signed_document_path req in
  try_catch
    (ex <- path_exists sdp ;;
     if negb ex then
       ret (failure "Documento firmado no encontrado" (Some INVALID) None
                    ("El archivo " ++ sdp ++ " no existe")%string)
     else
     let '(sfp, dp) := verify_paths req in
     ex2 <- path_exists dp ;;
     if negb ex2 then
       ret (failure "Documento original no encontrado" (Some INVALID) None
                    ("El archivo " ++ dp ++ " no existe")%string)
     else
     pkg <- load_signature_file sfp ;;
     match pkg with
     | Some j =>
       if negb (json_truthy j) then
         ret (failure "No se pudo cargar el archivo de firma" (Some INVALID) None
                      "El archivo de firma es inválido o está corrupto")
       else
       sfield <- lift (getitem j "signature") ;;
       sigd <- lift (py_fromhex sfield) ;;
       mfield <- lift (getitem j "metadata") ;;
       md <- lift (from_dict mfield) ;;
       loaded <- match nonempty (public_key_path req) with
                 | Some kp => r <- load_public_key kp ;;
                              ret (match r with Some _ => true | None => false end)
                 | None => ret true
                 end ;;
       if negb loaded then
         ret (failure "No se pudo cargar la clave pública" (Some KEY_MISMATCH) None
                      "Error al cargar la clave pública proporcionada")
       else
       m <- gets km ;;
       match public_key m with
       | None =>
           ret (failure "No hay clave pública disponible" (Some KEY_MISMATCH) None
                        "Se requiere una clave pública para verificar la firma")
       | Some _ =>
           cur <- calculate_document_hash dp ;;
           if negb (str_eq_json cur (document_hash md)) then
             ret (failure "El documento ha sido modificado después de la firma" (Some TAMPERED)
                          (Some md) "El hash del documento no coincide con el hash firmado")
           else
           valid <- verify_signature cur sigd ;;
           if valid then
             ret {| success := true;
                    message := "Firma válida - El documento es auténtico y no ha sido modificado";
                    status := Some VALID; metadata := Some md; signature_data := None;
                    signed_file_path := None; error := None |}
           else
             ret (failure "Firma inválida" (Some INVALID) (Some md)
                          "La firma digital no pudo ser verificada")
       end
     | None =>
         ret (failure "No se pudo cargar el archivo de firma" (Some INVALID) None
                      "El archivo de firma es inválido o está corrupto")
     end)
    (fun e => ret (failure "Error al verificar documento" (Some INVALID) None (str_exn e))).

Definition verify_request (p : string) : VerificationRequest :=
  {| signed_document_path := p; original_document_path := None; public_key_path := None |}.

(** [SignatureVerifier.verify_batch]. *)
Fixpoint verify_batch (paths : list string) : M (list SignatureResult) :=
  match paths with
  | [] => ret []
  | p :: ps =>
      r <- verify_document (verify_request p) ;;
      rs <- verify_batch ps ;;
      ret (r :: rs)
  end.

(** [SignatureVerifier.extract_metadata_from_signature]. *)
Definition extract_metadata_from_signature (p : string) : M (option SignatureMetadata) :=
  try_catch
    (b <- read_file p ;;
     j <- match json_load b with
          | Some j => ret j
          | None => raise (ValueError "Expecting value")
          end ;;
     mj <- lift (getitem j "metadata") ;;
     md <- lift (from_dict mj) ;;
     ret (Some md))
    (fun _ => ret None).

(** A double quote, for the messages that hold one. *)
Definition dq : string := String "034"%char EmptyString.

(** [metadata.document_hash[:16] + '...'] on whatever the sidecar holds
    (for a dict, Python before 3.12 raises the [TypeError] below, later
    versions a [KeyError]; it raises either way). *)
Definition hash_prefix (h : json) : py_exn + json :=
  match h with
  | JStr t => inr (JStr (substring 0 16 t ++ "..."))
  | JArr _ => inl (TypeError ("can only concatenate list (not " ++ dq ++ "str" ++ dq ++ ") to list"))
  | JObj _ => inl (TypeError "unhashable type: 'slice'")
  | JNull => inl (TypeError "'NoneType' object is not subscriptable")
  | JBool _ => inl (TypeError "'bool' object is not subscriptable")
  | JInt _ => inl (TypeError "'int' object is not subscriptable")
  | JOpaque => inl (TypeError "'object' object is not subscriptable")
  end%string.

(** [SignatureVerifier.get_signature_info]: nothing catches what the
    dict display raises. *)
Definition get_signature_info (document_path : string) : M json :=
  let sfp := (document_path ++ ".sig")%string in
  ex <- path_exists sfp ;;
  if negb ex then
    ret (JObj [("has_signature", JBool false);
               ("message", JStr "No se encontró archivo de firma")])
  else
  mo <- extract_metadata_from_signature sfp ;;
  match mo with
  | None =>
      ret (JObj [("has_signature", JBool true); ("is_valid", JBool false);
                 ("message", JStr "Archivo de firma corrupto")])
  | Some md =>
      h <- lift (hash_prefix (document_hash md)) ;;
      ret (JObj [("has_signature", JBool true);
                 ("signer_name", meta_signer_name md);
                 ("signer_email", meta_signer_email md);
                 ("signature_date", JStr (isoformat (signature_date md)));
                 ("algorithm", signature_algorithm md);
                 ("document_hash", h);
                 ("additional_info", meta_additional_info md)])
  end.

(** ** KeyManager (key_manager.py): generating, saving and loading keys *)

(** [if password:] on an optional [bytes]. *)
Definition password_truthy (pw : option bytes) : bool :=
  match pw with Some (_ :: _) => true | _ => false end.

(** [open(p, 'wb').write(b)]. *)
Definition write_file (p : string) (b : bytes) : M unit :=
  cur <- gets (fun s => fs s !! p) ;;
  match cur with
  | Some EDir => raise (IsADirectoryError p)
  | _ => modify (fun s => set_fs s (<[p := EFile b]> (fs s)))
  end.

(** The directories above a path, outermost first: each prefix that ends
    before a [/], the root excepted. Paths are taken in normal form (no
    empty, [.] or [..] components), as everywhere in the file system. *)
Fixpoint dir_prefixes (cs : list ascii) (seen : list ascii) : list string :=
  match cs with
  | [] => []
  | c :: r =>
      if Ascii.eqb c "/"%char then
        match seen with
        | [] => dir_prefixes r (c :: seen)
        | _ => string_of_list_ascii (rev seen) :: dir_prefixes r (c :: seen)
        end
      else dir_prefixes r (c :: seen)
  end.

Definition parent_dirs (p : string) : list string := dir_prefixes (list_ascii_of_string p) [].

(** The walk of [Path.mkdir(parents=True, exist_ok=True)] on the parent
    [parent], from the outermost directory: an existing directory is
    kept, a missing one is created, and a file stops it: [mkdir] of the
    parent itself raises [FileExistsError] when the parent is that file,
    and [NotADirectoryError] when the file is further up. *)
Fixpoint make_dirs (ds : list string) (parent : string) : M unit :=
  match ds with
  | [] => ret tt
  | d :: r =>
      cur <- gets (fun s => fs s !! d) ;;
      match cur with
      | Some EDir => make_dirs r parent
      | Some (EFile _) =>
          raise (if String.eqb d parent then FileExistsError parent else NotADirectoryError parent)
      | None => _ <- modify (fun s => set_fs s (<[d := EDir]> (fs s))) ;; make_dirs r parent
      end
  end.

(** [Path(p).parent.mkdir(parents=True, exist_ok=True)]. *)
Definition mkdir_parent (p : string) : M unit :=
  make_dirs (parent_dirs p) (List.last (parent_dirs p) "").

(** [KeyManager.generate_key_pair]. *)
Definition generate_key_pair (be : Backend) : M (rsa_priv * rsa_pub) :=
  m <- gets km ;;
  r <- gets entropy ;;
  let sk := rsa_generate be (key_size m) r in
  _ <- modify (fun s => set_km s {| key_size := key_size (km s); private_key := Some sk;
                                     public_key := Some (priv_public sk) |}) ;;
  ret (sk, priv_public sk).

(** [KeyManager.save_private_key]. *)
Definition save_private_key (be : Backend) (path : string) (password : option bytes) : M bool :=
  m <- gets km ;;
  match private_key m with
  | None => ret false
  | Some sk =>
      try_catch
        (_ <- mkdir_parent path ;;
         salt <- gets entropy ;;
         let enc := if password_truthy password then password else None in
         _ <- write_file path (private_pem be sk enc salt) ;;
         ret true)
        (fun _ => ret false)
  end.

(** [KeyManager.save_public_key]. *)
Definition save_public_key (path : string) : M bool :=
  m <- gets km ;;
  match public_key m with
  | None => ret false
  | Some k =>
      try_catch
        (_ <- mkdir_parent path ;;
         _ <- write_file path (pem_spki k) ;;
         ret true)
        (fun _ => ret false)
  end.

(** [KeyManager.load_private_key]: the public key becomes the public half
    of the loaded private key. *)
Definition load_private_key (be : Backend) (path : string) (password : option bytes) : M (option rsa_priv) :=
  try_catch
    (ex <- path_exists path ;;
     if negb ex then ret None else
     pem <- read_file path ;;
     match load_pem_private_key be pem password with
     | Some sk =>
         _ <- modify (fun s => set_km s {| key_size := key_size (km s); private_key := Some sk;
                                            public_key := Some (priv_public sk) |}) ;;
         ret (Some sk)
     | None => raise (ValueError "Could not deserialize key data.")
     end)
    (fun _ => ret None).

(** [KeyManager.verify_key_files_exist]. *)
Definition verify_key_files_exist (priv_path pub_path : string) : M bool :=
  e1 <- path_exists priv_path ;;
  if e1 then path_exists pub_path else ret false.

(** Running [k] on a local [KeyManager] object [m0], dropped afterwards. *)
Definition with_km {A} (m0 : KeyManager) (k : M A) : M A := fun s =>
  let '(s1, ev, r) := k (set_km s m0) in (set_km s1 (km s), ev, r).

(** [KeyManager.generate_and_save_keys]. *)
Definition generate_and_save_keys (be : Backend) (priv_path pub_path : string) (ks : Z)
    (password : option bytes) : M bool :=
  try_catch
    (m0 <- lift (KeyManager_init ks) ;;
     with_km m0
       (_ <- generate_key_pair be ;;
        ok1 <- save_private_key be priv_path password ;;
        if negb ok1 then ret false else
        ok2 <- save_public_key pub_path ;;
        if negb ok2 then ret false else ret true))
    (fun _ => ret false).

(** [DocumentSigner._load_keys]. *)
Definition load_keys (be : Backend) (priv_path pub_path : string) (password : option bytes) : M bool :=
  both <- verify_key_files_exist priv_path pub_path ;;
  ok <- (if both then ret true else generate_and_save_keys be priv_path pub_path 2048 password) ;;
  if negb ok then ret false else
  r <- load_private_key be priv_path password ;;
  match r with Some _ => ret true | None => ret false end.

(** [DocumentSigner.__init__]: a fresh [KeyManager()], then the keys. *)
Definition signer_init (be : Backend) (priv_path pub_path : string) (password : option bytes) : M unit :=
  _ <- modify (fun s => set_km s KeyManager_new) ;;
  ok <- load_keys be priv_path pub_path password ;;
  if ok then ret tt else raise (ValueError "No se pudieron cargar las claves de firma").

(** ** Predicates used in the properties *)

Definition byte_range (x : Z) : Prop := 0 <= x < 256.

Definition not_slash (c : ascii) : Prop := Ascii.eqb c "/"%char = false.


(** ** Results of a computation

    [post P m]: whenever [m] returns normally, its value satisfies [P].
    [returns P m]: [m] returns normally from every state, with a value
    satisfying [P]. *)

Definition post {A} (P : A -> Prop) (m : M A) : Prop :=
  forall s, match m s with (_, _, inr x) => P x | _ => True end.

Definition returns {A} (P : A -> Prop) (m : M A) : Prop :=
  forall s, exists s' ev x, m s = (s', ev, inr x) /\ P x.

(** The shape of the results of [sign_document]: a failure carries no
    status and an error, a success the status [VALID] and no error. *)
Definition sign_shape (r : SignatureResult) : bool :=
  match success r, status r, error r with
  | false, None, Some _ => true
  | true, Some VALID, None => true
  | _, _, _ => false
  end.

(** The shape of the results of [verify_document]: a failure carries
    [INVALID], [TAMPERED] or [KEY_MISMATCH] and an error, a success the
    status [VALID] and no error. *)
Definition verify_shape (r : SignatureResult) : bool :=
  match success r, status r, error r with
  | false, Some INVALID, Some _ => true
  | false, Some TAMPERED, Some _ => true
  | false, Some KEY_MISMATCH, Some _ => true
  | true, Some VALID, None => true
  | _, _, _ => false
  end.


(** The file [sign_document] writes its signature to: the output path
    when it is a non-empty name, otherwise [<document>.sig]. *)
Definition sidecar_path (req : SignatureRequest) : string :=
  match nonempty (output_path req) with
  | Some o => o
  | None => get_signature_file_path (document_path req)
  end.

(** No regular file stands at [d] ([os.makedirs] fails on one). *)
Definition no_file_at (f : gmap string entry) (d : string) : Prop :=
  forall b, f !! d <> Some (EFile b).

(** * Properties *)

(** ** Byte and string helpers *)

Lemma hex_digit_value d : 0 <= d < 16 -> hex_value (hex_digit d) = Some d.
Proof.
  intros H.
  assert (d = 0 \/ d = 1 \/ d = 2 \/ d = 3 \/ d = 4 \/ d = 5 \/ d = 6 \/ d = 7 \/ d = 8 \/
          d = 9 \/ d = 10 \/ d = 11 \/ d = 12 \/ d = 13 \/ d = 14 \/ d = 15) as Hd by lia.
  repeat destruct Hd as [-> | Hd]; try reflexivity; subst; reflexivity.
Qed.

Lemma hex_digit_not_space d : 0 <= d < 16 -> is_space (hex_digit d) = false.
Proof.
  intros H.
  assert (d = 0 \/ d = 1 \/ d = 2 \/ d = 3 \/ d = 4 \/ d = 5 \/ d = 6 \/ d = 7 \/ d = 8 \/
          d = 9 \/ d = 10 \/ d = 11 \/ d = 12 \/ d = 13 \/ d = 14 \/ d = 15) as Hd by lia.
  repeat destruct Hd as [-> | Hd]; try reflexivity; subst; reflexivity.
Qed.

Lemma fromhex_hex_chars b : Forall byte_range b -> fromhex_chars (hex_chars b) = Some b.
Proof.
  induction 1 as [|x r Hx Hr IH]; [reflexivity|].
  unfold byte_range in Hx. cbn [hex_chars fromhex_chars].
  rewrite hex_digit_not_space by (split; [apply Z.div_pos|apply Z.div_lt_upper_bound]; lia).
  rewrite !hex_digit_value by
    (first [ split; [apply Z.div_pos|apply Z.div_lt_upper_bound]; lia
           | apply Z.mod_pos_bound; lia ]).
  rewrite IH. do 2 f_equal. pose proof (Z.div_mod x 16). lia.
Qed.

Lemma bytes_fromhex_hex b : Forall byte_range b -> bytes_fromhex (bytes_hex b) = Some b.
Proof.
  intros H. unfold bytes_fromhex, bytes_hex.
  rewrite list_ascii_of_string_of_list_ascii. apply fromhex_hex_chars, H.
Qed.

Lemma str_bytes_range s : Forall byte_range (str_bytes s).
Proof.
  unfold str_bytes. induction (list_ascii_of_string s) as [|c cs IH]; constructor; [|exact IH].
  unfold byte_range. pose proof (N_ascii_bounded c). lia.
Qed.

(** ** The serialised form reads back *)

Lemma dec_pos_enc p r : dec_pos (enc_pos p ++ r) = Some (p, r).
Proof. induction p; cbn; try rewrite IHp; reflexivity. Qed.

Lemma dec_Z_enc z r : dec_Z (enc_Z z ++ r) = Some (z, r).
Proof. destruct z; cbn; try rewrite dec_pos_enc; reflexivity. Qed.

Lemma dec_chars_enc cs r : dec_chars (enc_chars cs ++ r) = Some (cs, r).
Proof.
  induction cs as [|c cs IH]; cbn; [reflexivity|].
  rewrite IH, N2Z.id, ascii_N_embedding. reflexivity.
Qed.

Lemma dec_str_enc s r : dec_str (enc_str s ++ r) = Some (s, r).
Proof.
  unfold dec_str, enc_str. rewrite dec_chars_enc, string_of_list_ascii_of_string.
  reflexivity.
Qed.

(** Induction on [json] through the nested lists. *)
Section json_ind.
Variable P : json -> Prop.
Hypothesis P_null : P JNull.
Hypothesis P_bool : forall b, P (JBool b).
Hypothesis P_int : forall z, P (JInt z).
Hypothesis P_str : forall s, P (JStr s).
Hypothesis P_arr : forall l, Forall P l -> P (JArr l).
Hypothesis P_obj : forall kvs, Forall (fun kv => P (snd kv)) kvs -> P (JObj kvs).
Hypothesis P_opaque : P JOpaque.

Fixpoint json_ind' (j : json) : P j :=
  match j with
  | JNull => P_null
  | JBool b => P_bool b
  | JInt z => P_int z
  | JStr s => P_str s
  | JArr l => P_arr l ((fix go (l : list json) : Forall P l :=
                         match l with
                         | [] => @List.Forall_nil _ P
                         | x :: t => @List.Forall_cons _ P x t (json_ind' x) (go t)
                         end) l)
  | JObj kvs => P_obj kvs ((fix go (kvs : list (string * json)) : Forall (fun kv => P (snd kv)) kvs :=
                              match kvs with
                              | [] => @List.Forall_nil _ _
                              | kv :: t => @List.Forall_cons _ (fun kv => P (snd kv)) kv t (json_ind' (snd kv)) (go t)
                              end) kvs)
  | JOpaque => P_opaque
  end.
End json_ind.

Definition dec_ok (j : json) : Prop :=
  snd (enc j) = true ->
  forall f r, (List.length (fst (enc j)) <= f)%nat -> dec f (fst (enc j) ++ r) = Some (j, r).

Lemma enc_items_ok l :
  Forall dec_ok l -> snd (enc_items l) = true ->
  forall f r, (List.length (fst (enc_items l)) <= f)%nat -> dec_arr f (fst (enc_items l) ++ r) = Some (l, r).
Proof.
  induction 1 as [|x t Hx Ht IH]; intros Hok f r Hf.
  - destruct f; [cbn in Hf; lia|reflexivity].
  - cbn in Hok, Hf |- *. unfold dec_ok in Hx.
    destruct (enc x) as [bx okx] eqn:Ex; cbn in Hx.
    destruct okx; [|discriminate].
    destruct (enc_items t) as [bt okt] eqn:Et; cbn in *.
    destruct f as [|f]; [cbn in Hf; lia|]. cbn in Hf.
    rewrite length_app in Hf. cbn.
    rewrite <- app_assoc, Hx by (reflexivity || lia).
    rewrite IH by (assumption || lia). reflexivity.
Qed.

Lemma enc_pairs_ok kvs :
  Forall (fun kv => dec_ok (snd kv)) kvs -> snd (enc_pairs kvs) = true ->
  forall f r, (List.length (fst (enc_pairs kvs)) <= f)%nat ->
  dec_obj f (fst (enc_pairs kvs) ++ r) = Some (kvs, r).
Proof.
  induction 1 as [|[k v] t Hx Ht IH]; intros Hok f r Hf.
  - destruct f; [cbn in Hf; lia|reflexivity].
  - cbn in Hok, Hf |- *. unfold dec_ok in Hx. cbn in Hx.
    destruct (enc v) as [bv okv] eqn:Ev; cbn in Hx.
    destruct okv; [|discriminate].
    destruct (enc_pairs t) as [bt okt] eqn:Et; cbn in *.
    destruct f as [|f]; [cbn in Hf; lia|]. cbn in Hf.
    rewrite !length_app in Hf. cbn.
    rewrite <- !app_assoc, dec_str_enc, Hx by (reflexivity || lia).
    rewrite IH by (assumption || lia). reflexivity.
Qed.

Lemma dec_enc j : dec_ok j.
Proof.
  induction j using json_ind'; unfold dec_ok; intros Hok f r Hf.
  - destruct f; [cbn in Hf; lia|reflexivity].
  - destruct f; [cbn in Hf; lia|]. destruct b; reflexivity.
  - destruct f; [cbn in Hf; lia|]. cbn -[dec_Z enc_Z]. rewrite dec_Z_enc. reflexivity.
  - destruct f; [cbn in Hf; lia|]. cbn -[dec_str enc_str]. rewrite dec_str_enc. reflexivity.
  - change (enc (JArr l)) with (4 :: fst (enc_items l), snd (enc_items l)) in *.
    cbn [fst snd] in *. destruct f; [cbn in Hf; lia|]. cbn -[dec_arr].
    rewrite (enc_items_ok l H Hok f r) by (cbn in Hf; lia). reflexivity.
  - change (enc (JObj kvs)) with (5 :: fst (enc_pairs kvs), snd (enc_pairs kvs)) in *.
    cbn [fst snd] in *. destruct f; [cbn in Hf; lia|]. cbn -[dec_obj].
    rewrite (enc_pairs_ok kvs H Hok f r) by (cbn in Hf; lia). reflexivity.
  - discriminate.
Qed.

(** [json.load] reads back what a completed [json.dump] wrote. *)
Lemma json_load_enc j : snd (enc j) = true -> json_load (fst (enc j)) = Some j.
Proof.
  intros Hok. unfold json_load.
  pose proof (dec_enc j Hok (List.length (fst (enc j))) [] (le_n _)) as H.
  rewrite app_nil_r in H. rewrite H. reflexivity.
Qed.

(** ** Paths *)

Lemma split_slash_no_slash ds cur :
  Forall not_slash ds -> split_slash ds cur = [string_of_list_ascii (rev cur ++ ds)].
Proof.
  revert cur. induction ds as [|d ds IH]; intros cur H.
  - cbn. rewrite app_nil_r. reflexivity.
  - inversion H as [|? ? Hd Hds]; subst. cbn. unfold not_slash in Hd. rewrite Hd.
    rewrite IH by exact Hds. cbn. rewrite <- app_assoc. reflexivity.
Qed.

Lemma split_slash_last cs ds cur :
  Forall not_slash ds ->
  exists pre lc, split_slash (cs ++ ds) cur = pre ++ [string_of_list_ascii (lc ++ ds)].
Proof.
  revert cur. induction cs as [|c cs IH]; intros cur H.
  - exists [], (rev cur). apply split_slash_no_slash, H.
  - cbn. destruct (Ascii.eqb c "/"%char).
    + destruct (IH [] H) as (pre & lc & E). rewrite E.
      exists (string_of_list_ascii (rev cur) :: pre), lc. reflexivity.
    + destruct (IH (c :: cur) H) as (pre & lc & E). rewrite E. exists pre, lc. reflexivity.
Qed.

Lemma rfind_dot_app xs ys i b :
  rfind_dot (xs ++ ys) i b = rfind_dot ys (i + List.length xs) (rfind_dot xs i b).
Proof.
  revert i b. induction xs as [|x xs IH]; intros i b; cbn.
  - rewrite Nat.add_0_r. reflexivity.
  - rewrite IH. f_equal. lia.
Qed.

Lemma substring_prefix_all s : substring 0 (String.length s) s = s.
Proof. induction s as [|c s IH]; cbn; [reflexivity|]. rewrite IH. reflexivity. Qed.

Lemma substring_after_prefix a b :
  substring (String.length a) (String.length b) (a ++ b)%string = b.
Proof. induction a as [|c a IH]; cbn; [apply substring_prefix_all | exact IH]. Qed.

Lemma string_length_app a b : String.length (a ++ b)%string = (String.length a + String.length b)%nat.
Proof. induction a as [|c a IH]; simpl; [reflexivity|]. f_equal. exact IH. Qed.

Lemma string_split_at s n :
  (n <= String.length s)%nat -> s = (substring 0 n s ++ substring n (String.length s - n) s)%string.
Proof.
  revert n. induction s as [|c s IH]; intros n Hn.
  - cbn in Hn. assert (n = 0%nat) by lia. subst. reflexivity.
  - destruct n as [|n].
    + cbn. rewrite substring_prefix_all. reflexivity.
    + simpl in Hn |- *. rewrite (IH n) at 1 by lia. reflexivity.
Qed.

Lemma ends_with_sig_split p : ends_with ".sig" p = true -> exists q, p = (q ++ ".sig")%string.
Proof.
  unfold ends_with. intros H. apply andb_prop in H as [Hl He].
  apply Nat.leb_le in Hl. apply String.eqb_eq in He.
  change (String.length ".sig") with 4%nat in Hl, He.
  exists (substring 0 (String.length p - 4) p).
  rewrite (string_split_at p (String.length p - 4)) at 1 by lia.
  replace (String.length p - (String.length p - 4))%nat with 4%nat by lia.
  rewrite He. reflexivity.
Qed.

Lemma list_ascii_of_string_app a b :
  list_ascii_of_string (a ++ b)%string = list_ascii_of_string a ++ list_ascii_of_string b.
Proof. induction a as [|c a IH]; simpl; [reflexivity|]. rewrite IH. reflexivity. Qed.

Lemma string_of_list_ascii_app a b :
  string_of_list_ascii (a ++ b) = (string_of_list_ascii a ++ string_of_list_ascii b)%string.
Proof. induction a as [|c a IH]; simpl; [reflexivity|]. rewrite IH. reflexivity. Qed.

Lemma length_string_of_list_ascii a : String.length (string_of_list_ascii a) = List.length a.
Proof. induction a as [|c a IH]; simpl; [reflexivity|]. rewrite IH. reflexivity. Qed.

(** The name of a path ending in [.sig] has the suffix [.sig] or none. *)
Lemma path_suffix_sig q :
  path_suffix (q ++ ".sig")%string = ".sig"%string \/ path_suffix (q ++ ".sig")%string = ""%string.
Proof.
  unfold path_suffix, path_name.
  rewrite list_ascii_of_string_app.
  destruct (split_slash_last (list_ascii_of_string q) (list_ascii_of_string ".sig") [])
    as (pre & lc & E); [repeat constructor|].
  rewrite E, List.filter_app. cbn [List.filter].
  set (nm := string_of_list_ascii (lc ++ list_ascii_of_string ".sig")).
  assert (Hnm : String.length nm = (List.length lc + 4)%nat).
  { unfold nm. rewrite length_string_of_list_ascii, length_app. reflexivity. }
  assert (Hkeep : negb (String.eqb nm "" || String.eqb nm ".") = true).
  { destruct (String.eqb_spec nm ""), (String.eqb_spec nm "."); try reflexivity;
      exfalso; [apply (f_equal String.length) in e | apply (f_equal String.length) in e
               | apply (f_equal String.length) in e]; rewrite Hnm in e; cbn in e; lia. }
  rewrite Hkeep, last_last.
  assert (Hdot : rfind_dot (list_ascii_of_string nm) 0 None = Some (List.length lc)).
  { unfold nm. rewrite list_ascii_of_string_of_list_ascii, rfind_dot_app. cbn; try (f_equal; lia). }
  rewrite Hdot, Hnm.
  destruct (0 <? List.length lc)%nat eqn:Hp; [left|right; reflexivity].
  replace (List.length lc <? List.length lc + 4 - 1)%nat with true
    by (symmetry; apply Nat.ltb_lt; lia). cbn [andb].
  replace (List.length lc) with (String.length (string_of_list_ascii lc))
    by apply length_string_of_list_ascii.
  replace (String.length (string_of_list_ascii lc) + 4 - String.length (string_of_list_ascii lc))%nat
    with (String.length ".sig") by (cbn; lia).
  unfold nm. rewrite string_of_list_ascii_app, string_of_list_ascii_of_string.
  apply substring_after_prefix.
Qed.

(** A path the signer accepts does not end in [.sig]. *)
Lemma detect_document_type_not_sig p dt :
  detect_document_type p = Some dt -> ends_with ".sig" p = false.
Proof.
  intros H. destruct (ends_with ".sig" p) eqn:E; [|reflexivity].
  apply ends_with_sig_split in E as [q ->].
  unfold detect_document_type in H.
  destruct (path_suffix_sig q) as [E|E]; rewrite E in H; discriminate.
Qed.

Lemma sig_path_neq p : get_signature_file_path p <> p.
Proof.
  unfold get_signature_file_path. intros H. apply (f_equal String.length) in H.
  rewrite string_length_app in H. cbn in H. lia.
Qed.

Lemma post_ret {A} (P : A -> Prop) x : P x -> post P (ret x).
Proof. intros H s. exact H. Qed.

Lemma post_raise {A} (P : A -> Prop) e : post P (raise e).
Proof. intros s. exact I. Qed.

Lemma post_bind {A B} (P : B -> Prop) (m : M A) (k : A -> M B) :
  (forall x, post P (k x)) -> post P (bind m k).
Proof.
  intros H s. unfold bind. destruct (m s) as [[s1 ev1] [e|x]]; [exact I|].
  specialize (H x s1). destruct (k x s1) as [[s2 ev2] r]. exact H.
Qed.

Lemma post_try_catch {A} (P : A -> Prop) (m : M A) h :
  post P m -> (forall e, post P (h e)) -> post P (try_catch m h).
Proof.
  intros Hm Hh s. unfold try_catch. specialize (Hm s).
  destruct (m s) as [[s1 ev1] [e|x]]; [|exact Hm].
  specialize (Hh e s1). destruct (h e s1) as [[s2 ev2] r]. exact Hh.
Qed.

Lemma returns_ret {A} (P : A -> Prop) x : P x -> returns P (ret x).
Proof. intros H s. exists s, [], x. split; [reflexivity|exact H]. Qed.

Lemma returns_bind {A B} (Q : A -> Prop) (P : B -> Prop) (m : M A) (k : A -> M B) :
  returns Q m -> (forall x, Q x -> returns P (k x)) -> returns P (bind m k).
Proof.
  intros Hm Hk s. destruct (Hm s) as (s1 & ev1 & x & E & Hx).
  destruct (Hk x Hx s1) as (s2 & ev2 & y & E2 & Hy).
  exists s2, (ev1 ++ ev2), y. unfold bind. rewrite E, E2. split; [reflexivity|exact Hy].
Qed.

(** A [try] whose handler always returns a value returns a value. *)
Lemma returns_try_catch {A} (P : A -> Prop) (m : M A) h :
  post P m -> (forall e, returns P (h e)) -> returns P (try_catch m h).
Proof.
  intros Hm Hh s. unfold try_catch. specialize (Hm s).
  destruct (m s) as [[s1 ev1] [e|x]] eqn:E.
  - destruct (Hh e s1) as (s2 & ev2 & y & E2 & Hy). rewrite E2.
    exists s2, (ev1 ++ ev2), y. split; [reflexivity|exact Hy].
  - exists s1, ev1, x. split; [reflexivity|exact Hm].
Qed.

Ltac post_step :=
  cbv beta zeta;
  lazymatch goal with
  | |- post _ (bind _ _) => apply post_bind; intros ?
  | |- post _ (try_catch _ _) => apply post_try_catch; [|intros ?]
  | |- post _ (ret _) => apply post_ret
  | |- post _ (raise _) => apply post_raise
  | |- post _ (if ?b then _ else _) => destruct b
  | |- post _ (match ?x with _ => _ end) => destruct x
  end.

Lemma sign_document_returns req : returns (fun r => sign_shape r = true) (sign_document req).
Proof.
  unfold sign_document. apply returns_try_catch.
  - repeat post_step; reflexivity.
  - intros e. apply returns_ret. reflexivity.
Qed.

Lemma verify_document_returns req : returns (fun r => verify_shape r = true) (verify_document req).
Proof.
  unfold verify_document. apply returns_try_catch.
  - repeat post_step; reflexivity.
  - intros e. apply returns_ret. reflexivity.
Qed.

(** ** Running the code

    [run_M] evaluates the monad and the methods on a concrete request;
    [step_M] leaves the helper methods folded, so that their summaries
    below can be used in a case analysis over all requests. *)

Ltac run_M := cbv beta iota zeta delta [ret bind raise lift gets modify emit try_catch path_exists
  read_file calculate_document_hash load_public_key create_signature save_signature
  verify_signature load_signature_file sign_document verify_document set_fs set_km negb
  nonempty verify_paths]; cbn [fs km clock entropy signed_document_path
  original_document_path public_key_path document_hash json_truthy str_eq_json].

Ltac step_M := cbv beta iota zeta delta [ret bind raise lift gets modify emit try_catch path_exists
  read_file create_signature save_signature sign_document verify_document set_fs set_km negb];
  cbn [fs km clock entropy signed_document_path original_document_path public_key_path
  document_hash document_path output_path additional_info].

(** Case analysis on a [match] whose scrutinee holds no [match]. *)
Ltac case_inner :=
  match goal with
  | |- context [match ?x with _ => _ end] =>
      lazymatch x with
      | context [match _ with _ => _ end] => fail
      | _ => destruct x eqn:?
      end
  end.

Lemma load_signature_file_run p s : exists o, load_signature_file p s = (s, [], inr o).
Proof. unfold load_signature_file. step_M. repeat (case_inner; step_M); eexists; reflexivity. Qed.

Lemma calculate_document_hash_run p s :
  exists x, calculate_document_hash p s = (s, [EvHash p], x).
Proof. unfold calculate_document_hash. step_M. repeat (case_inner; step_M); eexists; reflexivity. Qed.

Lemma verify_signature_run h sg s : exists v, verify_signature h sg s = (s, [EvVerify], inr v).
Proof. unfold verify_signature. step_M. repeat (case_inner; step_M); eexists; reflexivity. Qed.

(** [load_public_key] either changes nothing, or stores the key parsed
    from the file and returns it. *)
Lemma load_public_key_run kp s :
  exists s' r, load_public_key kp s = (s', [], inr r) /\
    ((r = None /\ s' = s) \/
     exists pem k, fs s !! kp = Some (EFile pem) /\ load_pem_public_key pem = Some k /\
       r = Some k /\ s' = set_km s (set_public_key (km s) k)).
Proof.
  unfold load_public_key. step_M. repeat (case_inner; step_M);
    eexists _, _; (split; [reflexivity|]); eauto 10.
Qed.

Ltac use_runs :=
  match goal with
  | |- context [load_signature_file ?p ?s] =>
      let o := fresh "o" in destruct (load_signature_file_run p s) as [o ->]
  | |- context [calculate_document_hash ?p ?s] =>
      let x := fresh "x" in destruct (calculate_document_hash_run p s) as [x ->]
  | |- context [verify_signature ?h ?g ?s] =>
      let v := fresh "v" in destruct (verify_signature_run h g s) as [v ->]
  | |- context [load_public_key ?p ?s] =>
      let s' := fresh "s" in let r := fresh "r" in
      destruct (load_public_key_run p s) as (s' & r & -> & Hload)
  end.

Ltac crunch := step_M; repeat ((use_runs || case_inner); step_M).

(** ** The sidecar written by the signer *)

Lemma getitem_package_signature x y :
  getitem (JObj [("signature", x); ("metadata", y)]) "signature" = inr x.
Proof. reflexivity. Qed.

Lemma getitem_package_metadata x y :
  getitem (JObj [("signature", x); ("metadata", y)]) "metadata" = inr y.
Proof. reflexivity. Qed.

Lemma py_fromhex_hex b : Forall byte_range b -> py_fromhex (JStr (bytes_hex b)) = inr b.
Proof. intros H. cbn. rewrite bytes_fromhex_hex by exact H. reflexivity. Qed.

(** ** SHA-256 digests are 32 bytes *)

Lemma round_length st kw : List.length (SHA256.round st kw) = List.length st.
Proof.
  unfold SHA256.round.
  destruct st as [|a [|b [|c [|d [|e [|f [|g [|h [|i r]]]]]]]]]; reflexivity.
Qed.

Lemma fold_round_length l st : List.length (fold_left SHA256.round l st) = List.length st.
Proof.
  revert st. induction l as [|kw l IH]; intros st; [reflexivity|].
  cbn. rewrite IH. apply round_length.
Qed.

Lemma compress_length hs blk :
  List.length hs = 8%nat -> List.length (SHA256.compress hs blk) = 8%nat.
Proof.
  intros H. unfold SHA256.compress.
  rewrite length_map, length_combine, fold_round_length, H. reflexivity.
Qed.

Lemma fold_compress_length bl hs :
  List.length hs = 8%nat -> List.length (fold_left SHA256.compress bl hs) = 8%nat.
Proof.
  revert hs. induction bl as [|blk bl IH]; intros hs H; [exact H|].
  cbn. apply IH, compress_length, H.
Qed.

Lemma flat_map_be_bytes_length ws :
  List.length (flat_map (SHA256.be_bytes 4) ws) = (4 * List.length ws)%nat.
Proof.
  induction ws as [|w ws IH]; [reflexivity|].
  cbn [flat_map]. rewrite length_app, IH. unfold SHA256.be_bytes.
  rewrite length_map, length_seq. cbn [List.length]. lia.
Qed.

Lemma sha256_length m : List.length (sha256 m) = 32%nat.
Proof.
  unfold sha256, SHA256.digest. rewrite flat_map_be_bytes_length, fold_compress_length by reflexivity.
  reflexivity.
Qed.

Lemma hex_chars_length b : List.length (hex_chars b) = (2 * List.length b)%nat.
Proof. induction b as [|x b IH]; cbn [hex_chars List.length]; [reflexivity|]. rewrite IH. lia. Qed.

Lemma bytes_hex_length b : String.length (bytes_hex b) = (2 * List.length b)%nat.
Proof. unfold bytes_hex. rewrite length_string_of_list_ascii. apply hex_chars_length. Qed.

(** ** Batches *)

Lemma sign_batch_app ps1 ps2 name email s s1 ev1 rs1 s2 ev2 rs2 :
  sign_batch ps1 name email s = (s1, ev1, inr rs1) ->
  sign_batch ps2 name email s1 = (s2, ev2, inr rs2) ->
  sign_batch (ps1 ++ ps2) name email s = (s2, ev1 ++ ev2, inr (rs1 ++ rs2)).
Proof.
  revert s ev1 rs1. induction ps1 as [|p ps1 IH]; intros s ev1 rs1 H1 H2.
  - cbn in H1. injection H1 as <- <- <-. exact H2.
  - cbn [sign_batch app] in H1 |- *. unfold bind in H1 |- *.
    destruct (sign_document (batch_request p name email) s) as [[sa eva] [e|r]]; [discriminate|].
    destruct (sign_batch ps1 name email sa) as [[sb evb] [e|rs]] eqn:Eb; [discriminate|].
    cbn in H1. injection H1 as <- <- <-.
    rewrite (IH sa evb rs Eb H2). cbn. rewrite !app_nil_r, app_assoc. reflexivity.
Qed.

Lemma sign_batch_returns paths name email :
  returns (fun rs => List.length rs = List.length paths /\
                     Forall (fun r => sign_shape r = true) rs)
          (sign_batch paths name email).
Proof.
  induction paths as [|p ps IH].
  - apply returns_ret. split; [reflexivity|constructor].
  - cbn [sign_batch]. apply (returns_bind _ _ _ _ (sign_document_returns _)). intros r Hr.
    apply (returns_bind _ _ _ _ IH). intros rs [Hl Hs].
    apply returns_ret. split; [cbn; lia|]. apply (@List.Forall_cons _ _ r rs Hr Hs).
Qed.

Lemma verify_batch_returns paths :
  returns (fun rs => List.length rs = List.length paths /\
                     Forall (fun r => verify_shape r = true) rs)
          (verify_batch paths).
Proof.
  induction paths as [|p ps IH].
  - apply returns_ret. split; [reflexivity|constructor].
  - cbn [verify_batch]. apply (returns_bind _ _ _ _ (verify_document_returns _)). intros r Hr.
    apply (returns_bind _ _ _ _ IH). intros rs [Hl Hs].
    apply returns_ret. split; [cbn; lia|]. apply (@List.Forall_cons _ _ r rs Hr Hs).
Qed.

(** A failed [sign_document] of a batch leaves the state as it was: no
    sidecar is written for it. *)
Lemma sign_document_batch_frame p name email s :
  exists s' ev r, sign_document (batch_request p name email) s = (s', ev, inr r) /\
    (success r = true \/ s' = s).
Proof.
  unfold batch_request. crunch.
  all: try (match goal with H : enc _ = (_, false) |- _ =>
              apply (f_equal snd) in H; cbn in H; discriminate end).
  all: eexists _, _, _; (split; [reflexivity|]); cbn; auto.
Qed.

(** ** Signing, then verifying

    What the round trip needs from the primitives: [isoformat] is read
    back by [fromisoformat], a PSS signature verifies under the public
    half of its key, and it is a byte string when the message is. *)

Hypothesis iso_roundtrip : forall d, fromisoformat (isoformat d) = Some d.
Hypothesis pss_correct :
  forall sk salt m, pss_verify (priv_public sk) (pss_sign sk salt m) m = true.
Hypothesis pss_sign_bytes :
  forall sk salt m, Forall byte_range m -> Forall byte_range (pss_sign sk salt m).

Lemma from_dict_to_dict md : from_dict (to_dict md) = inr md.
Proof.
  unfold from_dict, to_dict. cbn. rewrite iso_roundtrip. cbn.
  destruct md; reflexivity.
Qed.

(** A successful signature: the hash event, the sidecar written next to
    the document, and the package that [json.load] reads back from it. *)
Lemma sign_document_success req s0 sk dt b :
  additional_info req = [] -> output_path req = None ->
  fs s0 !! document_path req = Some (EFile b) ->
  detect_document_type (document_path req) = Some dt ->
  private_key (km s0) = Some sk ->
  fs s0 !! get_signature_file_path (document_path req) <> Some EDir ->
  exists md out r,
    sign_document req s0 =
      (set_fs s0 (<[get_signature_file_path (document_path req) := EFile out]> (fs s0)),
       [EvHash (document_path req)], inr r) /\
    success r = true /\ status r = Some VALID /\ metadata r = Some md /\
    document_hash md = JStr (bytes_hex (sha256 b)) /\
    json_load out =
      Some (JObj [("signature", JStr (bytes_hex (pss_sign sk (entropy s0)
                                                  (str_bytes (bytes_hex (sha256 b))))));
                  ("metadata", to_dict md)]).
Proof.
  intros Hai Hout Hb Hdt Hsk Hsig.
  run_M. rewrite Hb, Hdt. run_M. rewrite Hb. run_M. rewrite Hsk. run_M. rewrite Hout. run_M.
  rewrite Hai.
  destruct (fs s0 !! get_signature_file_path (document_path req)) as [[]|] eqn:Es;
    [| congruence |];
  destruct (get_public_key_fingerprint (km s0)) as [f|];
  match goal with |- context [enc ?j] => destruct (enc j) as [out ok] eqn:Eenc end;
  (assert (Hok : ok = true) by (apply (f_equal snd) in Eenc; cbn in Eenc; congruence));
  subst ok; run_M;
  (eexists _, out, _; split; [reflexivity|]); cbn [success status metadata document_hash];
  (do 4 (split; [reflexivity|]));
  match type of Eenc with enc ?j = _ =>
    replace out with (fst (enc j)) by (rewrite Eenc; reflexivity);
    apply json_load_enc; rewrite Eenc; reflexivity end.
Qed.

(** [verify_document] on a document [p] whose sidecar [p.sig] holds a
    signature and metadata, with no key path in the request. *)
Lemma verify_document_sidecar p s b out sigd md :
  ends_with ".sig" p = false ->
  fs s !! p = Some (EFile b) ->
  fs s !! get_signature_file_path p = Some (EFile out) ->
  json_load out = Some (JObj [("signature", JStr (bytes_hex sigd)); ("metadata", to_dict md)]) ->
  Forall byte_range sigd ->
  exists ev r, verify_document (verify_request p) s = (s, ev, inr r) /\
    match public_key (km s) with
    | None => ev = [] /\ success r = false /\ status r = Some KEY_MISMATCH
    | Some pk =>
        metadata r = Some md /\
        if str_eq_json (bytes_hex (sha256 b)) (document_hash md)
        then ev = [EvHash p; EvVerify] /\
             success r = pss_verify pk sigd (str_bytes (bytes_hex (sha256 b))) /\
             status r = Some (if pss_verify pk sigd (str_bytes (bytes_hex (sha256 b)))
                              then VALID else INVALID)
        else ev = [EvHash p] /\ success r = false /\ status r = Some TAMPERED
    end.
Proof.
  intros Hsig Hb Hs Hl Hr. unfold get_signature_file_path in Hs. unfold verify_request.
  destruct (public_key (km s)) as [pk|] eqn:Epk.
  all: repeat progress (rewrite ?Hb, ?Hs, ?Hsig, ?Hl, ?Epk, ?getitem_package_signature,
    ?getitem_package_metadata, ?(py_fromhex_hex _ Hr), ?from_dict_to_dict; run_M).
  all: repeat (case_inner; run_M).
  all: eexists _, _; split; [reflexivity|]; cbn; solve [auto | exfalso; congruence].
Qed.

(** * The claims *)

(** C1: round trip. Signing a document with a supported extension (a
    request with no output path and no additional information) and then
    verifying it, with the document and its sidecar unchanged and the
    verifier holding the public half of the signing key, succeeds with
    status VALID at both steps, and the verified metadata carries the
    hash recorded at signing, the hex SHA-256 of the document. *)
Theorem sign_then_verify_valid req s0 sk dt b :
  additional_info req = [] -> output_path req = None ->
  fs s0 !! document_path req = Some (EFile b) ->
  detect_document_type (document_path req) = Some dt ->
  private_key (km s0) = Some sk ->
  fs s0 !! get_signature_file_path (document_path req) <> Some EDir ->
  exists s1 ev1 r1,
    sign_document req s0 = (s1, ev1, inr r1) /\
    success r1 = true /\ status r1 = Some VALID /\
    option_map document_hash (metadata r1) = Some (JStr (bytes_hex (sha256 b))) /\
    forall s2,
      fs s2 !! document_path req = fs s1 !! document_path req ->
      fs s2 !! get_signature_file_path (document_path req) =
        fs s1 !! get_signature_file_path (document_path req) ->
      public_key (km s2) = Some (priv_public sk) ->
      exists s3 ev2 r2,
        verify_document (verify_request (document_path req)) s2 = (s3, ev2, inr r2) /\
        success r2 = true /\ status r2 = Some VALID /\
        option_map document_hash (metadata r2) = option_map document_hash (metadata r1).
Proof.
  intros Hai Hout Hb Hdt Hsk Hsig.
  destruct (sign_document_success req s0 sk dt b Hai Hout Hb Hdt Hsk Hsig)
    as (md & out & r1 & Es & Hs & Hst & Hmd & Hh & Hl).
  eexists _, _, _. split; [exact Es|]. rewrite Hmd. cbn [option_map]. rewrite Hh.
  split; [exact Hs|]. split; [exact Hst|]. split; [reflexivity|].
  intros s2 H1 H2 Hpk. cbn [fs set_fs] in H1, H2.
  rewrite lookup_insert_ne in H1 by apply sig_path_neq. rewrite Hb in H1.
  rewrite lookup_insert_eq in H2.
  destruct (verify_document_sidecar (document_path req) s2 b out _ md
              (detect_document_type_not_sig _ _ Hdt) H1 H2 Hl
              (pss_sign_bytes _ _ _ (str_bytes_range _))) as (ev & r2 & Ev & Hr).
  rewrite Hpk, Hh in Hr. cbn [str_eq_json] in Hr. rewrite String.eqb_refl, pss_correct in Hr.
  destruct Hr as (Hm & _ & Hsu & Hst2).
  exists s2, ev, r2. rewrite Hm. cbn [option_map]. rewrite Hh. auto.
Qed.

(** C2 (corrected): after signing, if the document's content changes so
    that its hex SHA-256 differs from the recorded one while the sidecar
    stays, verification fails before the signature check: with status
    TAMPERED when the verifier holds a public key, and KEY_MISMATCH when
    it holds none; never VALID or INVALID. *)
Theorem tampered_document_status req s0 sk dt b :
  additional_info req = [] -> output_path req = None ->
  fs s0 !! document_path req = Some (EFile b) ->
  detect_document_type (document_path req) = Some dt ->
  private_key (km s0) = Some sk ->
  fs s0 !! get_signature_file_path (document_path req) <> Some EDir ->
  exists s1 ev1 r1,
    sign_document req s0 = (s1, ev1, inr r1) /\ success r1 = true /\
    forall s2 b',
      fs s2 !! document_path req = Some (EFile b') ->
      bytes_hex (sha256 b') <> bytes_hex (sha256 b) ->
      fs s2 !! get_signature_file_path (document_path req) =
        fs s1 !! get_signature_file_path (document_path req) ->
      exists s3 ev2 r2,
        verify_document (verify_request (document_path req)) s2 = (s3, ev2, inr r2) /\
        success r2 = false /\ ~ In EvVerify ev2 /\
        status r2 = Some (match public_key (km s2) with
                          | Some _ => TAMPERED
                          | None => KEY_MISMATCH
                          end).
Proof.
  intros Hai Hout Hb Hdt Hsk Hsig.
  destruct (sign_document_success req s0 sk dt b Hai Hout Hb Hdt Hsk Hsig)
    as (md & out & r1 & Es & Hs & Hst & Hmd & Hh & Hl).
  eexists _, _, _. split; [exact Es|]. split; [exact Hs|].
  intros s2 b' H1 Hne H2. cbn [fs set_fs] in H2. rewrite lookup_insert_eq in H2.
  destruct (verify_document_sidecar (document_path req) s2 b' out _ md
              (detect_document_type_not_sig _ _ Hdt) H1 H2 Hl
              (pss_sign_bytes _ _ _ (str_bytes_range _))) as (ev & r2 & Ev & Hr).
  exists s2, ev, r2. split; [exact Ev|].
  destruct (public_key (km s2)) as [pk|].
  - rewrite Hh in Hr. cbn [str_eq_json] in Hr.
    rewrite (proj2 (String.eqb_neq _ _) Hne) in Hr.
    destruct Hr as (_ & -> & Hsu & Hst2). cbn. intuition discriminate.
  - destruct Hr as (-> & Hsu & Hst2). cbn. auto.
Qed.


(** C4 (corrected): the fingerprint is [None] without a public key, and
    otherwise the hex SHA-256 of the PEM encoding of the key's
    SubjectPublicKeyInfo (not of its DER bytes), 64 hex digits; it
    depends on the public key alone. *)
Theorem public_key_fingerprint_pem m1 m2 :
  get_public_key_fingerprint m1 =
    match public_key m1 with
    | None => None
    | Some k => Some (bytes_hex (sha256 (pem_spki k)))
    end /\
  (public_key m1 = public_key m2 ->
   get_public_key_fingerprint m1 = get_public_key_fingerprint m2) /\
  (forall f, get_public_key_fingerprint m1 = Some f -> String.length f = 64%nat).
Proof.
  unfold get_public_key_fingerprint. split; [reflexivity|]. split.
  - intros ->. reflexivity.
  - intros f. destruct (public_key m1) as [k|]; [|discriminate].
    intros [= <-]. rewrite bytes_hex_length, sha256_length. reflexivity.
Qed.

(** C5: [sign_document] and [verify_document] return a result from every
    request and state (no exception escapes), and a result with
    [success = false] carries an error. *)
Theorem sign_verify_return_results req vreq s :
  (exists s' ev r, sign_document req s = (s', ev, inr r) /\
     (success r = false -> error r <> None)) /\
  (exists s' ev r, verify_document vreq s = (s', ev, inr r) /\
     (success r = false -> error r <> None)).
Proof.
  split.
  - destruct (sign_document_returns req s) as (s' & ev & r & E & H).
    exists s', ev, r. split; [exact E|]. intros Hs He.
    unfold sign_shape in H. rewrite Hs, He in H. destruct (status r); discriminate.
  - destruct (verify_document_returns vreq s) as (s' & ev & r & E & H).
    exists s', ev, r. split; [exact E|]. intros Hs He.
    unfold verify_shape in H. rewrite Hs, He in H. destruct (status r) as [[]|]; discriminate.
Qed.

(** C6 (corrected): a path whose extension is not .txt, .pdf or .zip is
    rejected without computing any hash and without changing the state;
    the message is the unsupported-type one when the file exists, and
    the not-found one when it does not (existence is checked first). *)
Theorem unsupported_type_rejected req s :
  detect_document_type (document_path req) = None ->
  exists r, sign_document req s = (s, [], inr r) /\
    success r = false /\ status r = None /\
    message r = match fs s !! document_path req with
                | Some _ => "Tipo de documento no soportado"%string
                | None => "Documento no encontrado"%string
                end.
Proof.
  intros H. destruct (fs s !! document_path req) as [e|] eqn:E.
  all: repeat progress (rewrite ?E, ?H; run_M).
  all: eexists; split; [reflexivity|]; cbn; auto.
Qed.

(** C7: [sign_batch] on [ps1 ++ p :: ps2] returns one result per path in
    order: the results of [ps1], then the result of [sign_document] for
    [p] in the state reached after [ps1], then one result per path of
    [ps2]. When the result for [p] is a failure, the other results are
    those of the batch without [p]. *)
Theorem sign_batch_per_path ps1 p ps2 name email s :
  exists rs1 r rs2,
    snd (sign_batch (ps1 ++ p :: ps2) name email s) = inr (rs1 ++ r :: rs2) /\
    List.length rs1 = List.length ps1 /\ List.length rs2 = List.length ps2 /\
    snd (sign_batch ps1 name email s) = inr rs1 /\
    snd (sign_document (batch_request p name email) (fst (fst (sign_batch ps1 name email s))))
      = inr r /\
    (success r = false -> snd (sign_batch (ps1 ++ ps2) name email s) = inr (rs1 ++ rs2)).
Proof.
  destruct (sign_batch_returns ps1 name email s) as (s1 & ev1 & rs1 & E1 & Hl1 & _).
  destruct (sign_document_batch_frame p name email s1) as (s1' & evp & r & Ep & Hfr).
  destruct (sign_batch_returns ps2 name email s1') as (s2 & ev2 & rs2 & E2 & Hl2 & _).
  assert (Ec : sign_batch (p :: ps2) name email s1 = (s2, evp ++ (ev2 ++ []), inr (r :: rs2))).
  { cbn [sign_batch]. unfold bind. rewrite Ep, E2. reflexivity. }
  exists rs1, r, rs2.
  rewrite (sign_batch_app _ _ _ _ _ _ _ _ _ _ _ E1 Ec), E1. cbn [fst snd]. rewrite Ep.
  repeat split; try assumption.
  intros Hf. destruct Hfr as [Ht | ->]; [congruence|].
  rewrite (sign_batch_app _ _ _ _ _ _ _ _ _ _ _ E1 E2). reflexivity.
Qed.

(** C8 (corrected): a result of [verify_document] always has a status,
    but a result of [sign_document] has the status VALID when it
    succeeds and no status when it fails. *)
Theorem result_status_shape req vreq s :
  (exists s' ev r, sign_document req s = (s', ev, inr r) /\
     status r = if success r then Some VALID else None) /\
  (exists s' ev r, verify_document vreq s = (s', ev, inr r) /\
     status r <> None /\ (status r = Some VALID <-> success r = true)).
Proof.
  split.
  - destruct (sign_document_returns req s) as (s' & ev & r & E & H).
    exists s', ev, r. split; [exact E|]. unfold sign_shape in H.
    destruct (success r), (status r) as [[]|], (error r); congruence.
  - destruct (verify_document_returns vreq s) as (s' & ev & r & E & H).
    exists s', ev, r. split; [exact E|]. unfold verify_shape in H.
    destruct (success r), (status r) as [[]|], (error r); split; try congruence;
      split; congruence.
Qed.

(** C9: no result of [sign_document], [verify_document], [sign_batch] or
    [verify_batch] has the status EXPIRED. *)
Theorem no_expired_status req vreq paths name email vpaths s :
  (exists s' ev r, sign_document req s = (s', ev, inr r) /\ status r <> Some EXPIRED) /\
  (exists s' ev r, verify_document vreq s = (s', ev, inr r) /\ status r <> Some EXPIRED) /\
  (exists s' ev rs, sign_batch paths name email s = (s', ev, inr rs) /\
     Forall (fun r => status r <> Some EXPIRED) rs) /\
  (exists s' ev rs, verify_batch vpaths s = (s', ev, inr rs) /\
     Forall (fun r => status r <> Some EXPIRED) rs).
Proof.
  assert (Hs : forall r, sign_shape r = true -> status r <> Some EXPIRED).
  { intros r H He. unfold sign_shape in H. rewrite He in H.
    destruct (success r), (error r); discriminate. }
  assert (Hv : forall r, verify_shape r = true -> status r <> Some EXPIRED).
  { intros r H He. unfold verify_shape in H. rewrite He in H.
    destruct (success r), (error r); discriminate. }
  split; [|split; [|split]].
  - destruct (sign_document_returns req s) as (s' & ev & r & E & H).
    exists s', ev, r. split; [exact E|]. apply Hs, H.
  - destruct (verify_document_returns vreq s) as (s' & ev & r & E & H).
    exists s', ev, r. split; [exact E|]. apply Hv, H.
  - destruct (sign_batch_returns paths name email s) as (s' & ev & rs & E & _ & H).
    exists s', ev, rs. split; [exact E|]. eapply Forall_impl; [exact H|]. exact Hs.
  - destruct (verify_batch_returns vpaths s) as (s' & ev & rs & E & _ & H).
    exists s', ev, rs. split; [exact E|]. eapply Forall_impl; [exact H|]. exact Hv.
Qed.


(** * Further properties *)

(** ** Dictionaries *)

Lemma dict_lookup_fold k kvs acc :
  fold_left (fun acc kv => if String.eqb (fst kv) k then Some (snd kv) else acc) kvs acc =
  match dict_lookup k kvs with Some v => Some v | None => acc end.
Proof.
  unfold dict_lookup. revert acc. induction kvs as [|[k' v'] r IH]; intros acc; cbn; [reflexivity|].
  rewrite (IH (if String.eqb k' k then Some v' else acc)),
          (IH (if String.eqb k' k then Some v' else None)).
  destruct (fold_left _ r None); [reflexivity|]. destruct (String.eqb k' k); reflexivity.
Qed.

Lemma dict_lookup_cons k k' v r :
  dict_lookup k ((k', v) :: r) =
  match dict_lookup k r with Some w => Some w | None => if String.eqb k' k then Some v else None end.
Proof. unfold dict_lookup at 1. cbn. apply dict_lookup_fold. Qed.


Lemma dict_set_keys k v kvs : map fst (dict_set k v kvs) =
  if existsb (fun k' => String.eqb k' k) (map fst kvs) then map fst kvs else map fst kvs ++ [k].
Proof.
  induction kvs as [|[k' v'] r IH]; [reflexivity|]. cbn.
  destruct (String.eqb_spec k' k) as [->|]; [reflexivity|]. cbn. rewrite IH.
  destruct existsb; reflexivity.
Qed.

Lemma dict_lookup_none k kvs : ~ In k (map fst kvs) -> dict_lookup k kvs = None.
Proof.
  induction kvs as [|[k' v'] r IH]; intros H; [reflexivity|]. rewrite dict_lookup_cons.
  cbn in H. rewrite IH by tauto. destruct (String.eqb_spec k' k); [tauto|reflexivity].
Qed.

Lemma dict_set_nodup k v kvs : NoDup (map fst kvs) -> NoDup (map fst (dict_set k v kvs)).
Proof.
  intros H. rewrite dict_set_keys. destruct (existsb _ _) eqn:E; [exact H|].
  apply NoDup_app. split; [exact H|]. split; [|apply NoDup_singleton].
  intros x Hx Hin. apply list_elem_of_singleton in Hin. apply list_elem_of_In in Hx. subst x.
  assert (Hf : existsb (fun k' => String.eqb k' k) (map fst kvs) = true).
  { apply existsb_exists. exists k. split; [exact Hx|apply String.eqb_refl]. }
  congruence.
Qed.

Lemma dict_lookup_set k v kvs x : NoDup (map fst kvs) ->
  dict_lookup x (dict_set k v kvs) = if String.eqb k x then Some v else dict_lookup x kvs.
Proof.
  induction kvs as [|[k0 v0] r IH]; intros Hnd.
  - cbn [dict_set]. rewrite dict_lookup_cons. reflexivity.
  - cbn [dict_set map fst] in Hnd |- *. inversion Hnd as [|? ? Hk0 Hr]; subst.
    destruct (String.eqb_spec k0 k) as [E0|Hne].
    + subst k0. rewrite !dict_lookup_cons. destruct (String.eqb_spec k x) as [Ex|Hx].
      * subst x. rewrite dict_lookup_none by (rewrite <- list_elem_of_In; exact Hk0).
        reflexivity.
      * destruct (dict_lookup x r); reflexivity.
    + rewrite !dict_lookup_cons, IH by exact Hr.
      destruct (String.eqb_spec k x) as [Ex|Hx]; [|reflexivity].
      reflexivity.
Qed.

(** [{**a, **b}] looks a key up in [b] first, then in [a] (whose keys are
    distinct, as in any dict). *)
Lemma dict_lookup_merge a b k : NoDup (map fst a) ->
  dict_lookup k (dict_merge a b) = match dict_lookup k b with Some v => Some v | None => dict_lookup k a end.
Proof.
  unfold dict_merge. revert a. induction b as [|[k' v'] r IH]; intros a Hnd; [reflexivity|].
  cbn [fold_left fst snd]. rewrite IH by (apply dict_set_nodup, Hnd).
  rewrite dict_lookup_cons, dict_lookup_set by exact Hnd.
  destruct (dict_lookup k r); [reflexivity|]. destruct (String.eqb k' k); reflexivity.
Qed.

(** ** Serialisation stops at an unserialisable value *)



(** ** Strings *)

Lemma substring_prefix_app a b : substring 0 (String.length a) (a ++ b)%string = a.
Proof.
  induction a as [|c a IH]; [destruct b; reflexivity|].
  change (String c (substring 0 (String.length a) (a ++ b)) = String c a). rewrite IH. reflexivity.
Qed.

Lemma ends_with_sig_app p : ends_with ".sig" (p ++ ".sig")%string = true.
Proof.
  unfold ends_with. rewrite string_length_app. cbn [String.length].
  replace (String.length p + 4 - 4)%nat with (String.length p) by lia.
  pose proof (substring_after_prefix p ".sig") as H. cbn [String.length] in H. rewrite H.
  rewrite (proj2 (Nat.leb_le 4 (String.length p + 4)) ltac:(lia)). reflexivity.
Qed.

Lemma drop_last4_sig p : drop_last4 (p ++ ".sig")%string = p.
Proof.
  unfold drop_last4. rewrite string_length_app. cbn [String.length].
  replace (String.length p + 4 - 4)%nat with (String.length p) by lia.
  apply substring_prefix_app.
Qed.

(** ** Further properties of the code *)

Lemma load_public_key_eqn path s :
  load_public_key path s =
    match fs s !! path with
    | Some (EFile pem) =>
        match load_pem_public_key pem with
        | Some k => (set_km s (set_public_key (km s) k), [], inr (Some k))
        | None => (s, [], inr None)
        end
    | _ => (s, [], inr None)
    end.
Proof.
  unfold load_public_key. step_M.
  destruct (fs s !! path) as [[pem|]|] eqn:E; step_M; repeat (rewrite E; step_M);
    [|reflexivity|reflexivity].
  destruct (load_pem_public_key pem); reflexivity.
Qed.

(** [KeyManager.load_public_key] never raises: it stores and returns the
    key parsed from a regular file, and otherwise returns [None] with the
    state unchanged, keeping any key loaded before. *)
Theorem load_public_key_spec path s :
  load_public_key path s =
    match fs s !! path with
    | Some (EFile pem) =>
        match load_pem_public_key pem with
        | Some k => (set_km s (set_public_key (km s) k), [], inr (Some k))
        | None => (s, [], inr None)
        end
    | _ => (s, [], inr None)
    end.
Proof. apply load_public_key_eqn. Qed.

Lemma verifier_init_eqn pkp s :
  verifier_init pkp s =
    (set_km s (match nonempty pkp with
               | Some p =>
                   match fs s !! p with
                   | Some (EFile pem) =>
                       match load_pem_public_key pem with
                       | Some k => set_public_key KeyManager_new k
                       | None => KeyManager_new
                       end
                   | _ => KeyManager_new
                   end
               | None => KeyManager_new
               end), [], inr tt).
Proof.
  unfold verifier_init. step_M.
  destruct (nonempty pkp) as [p|]; [|reflexivity]. step_M.
  destruct (fs s !! p) as [[pem|]|] eqn:E; unfold load_public_key; step_M;
    repeat (rewrite E; step_M); [|reflexivity|reflexivity].
  destruct (load_pem_public_key pem); reflexivity.
Qed.

(** [SignatureVerifier(public_key_path)] never fails: the verifier starts
    with an empty key manager and holds the key of the path when the path
    is a non-empty name of a file that parses as a public key; a missing,
    unreadable or malformed key file leaves it without a key. *)
Theorem verifier_init_spec pkp s :
  verifier_init pkp s =
    (set_km s (match nonempty pkp with
               | Some p =>
                   match fs s !! p with
                   | Some (EFile pem) =>
                       match load_pem_public_key pem with
                       | Some k => set_public_key KeyManager_new k
                       | None => KeyManager_new
                       end
                   | _ => KeyManager_new
                   end
               | None => KeyManager_new
               end), [], inr tt).
Proof. apply verifier_init_eqn. Qed.

(** For a document [p] not ending in [.sig], with [p] and [p.sig] both
    present, verifying [p] and verifying [p.sig] are the same call: the
    same sidecar, document, result, calls and state. *)
Theorem verify_document_either_path p s :
  ends_with ".sig" p = false ->
  fs s !! p <> None -> fs s !! (p ++ ".sig")%string <> None ->
  verify_document (verify_request (p ++ ".sig")) s = verify_document (verify_request p) s.
Proof.
  intros Hp Hd Hs. unfold verify_document, verify_request, verify_paths.
  cbn [signed_document_path original_document_path nonempty].
  rewrite Hp, ends_with_sig_app, drop_last4_sig.
  destruct (fs s !! (p ++ ".sig")%string) as [e1|] eqn:E1; [|congruence].
  destruct (fs s !! p) as [e2|] eqn:E2; [|congruence].
  cbv [try_catch bind path_exists gets ret negb]. rewrite !E1, !E2. reflexivity.
Qed.

(** ** Helpers for the signer's results *)

Lemma verify_request_run p s : exists ev r, verify_document (verify_request p) s = (s, ev, inr r).
Proof. unfold verify_request. crunch. all: try discriminate. all: eexists _, _; reflexivity. Qed.


Lemma base_info_nodup dt p :
  NoDup (map fst [("document_type", JStr (DocumentType_value dt)); ("document_name", JStr (path_name p))]).
Proof.
  cbn. constructor; [|apply NoDup_singleton].
  intros Hin. apply list_elem_of_singleton in Hin. discriminate.
Qed.


(** What a successful [sign_document] did. *)
Lemma sign_document_success_inv req s s' ev r :
  sign_document req s = (s', ev, inr r) -> success r = true ->
  exists b dt sk md out,
    fs s !! document_path req = Some (EFile b) /\
    detect_document_type (document_path req) = Some dt /\
    private_key (km s) = Some sk /\
    s' = set_fs s (<[sidecar_path req := EFile out]> (fs s)) /\
    ev = [EvHash (document_path req)] /\
    metadata r = Some md /\ signed_file_path r = Some (sidecar_path req) /\
    signature_data r = Some (pss_sign sk (entropy s) (str_bytes (bytes_hex (sha256 b)))) /\
    md = {| meta_signer_name := JStr (signer_name req);
            meta_signer_email := JStr (signer_email req);
            signature_date := clock s;
            document_hash := JStr (bytes_hex (sha256 b));
            signature_algorithm := JStr "RSA-PSS with SHA-256";
            key_fingerprint := match get_public_key_fingerprint (km s) with
                               | Some f => JStr f | None => JNull end;
            meta_additional_info :=
              JObj (dict_merge [("document_type", JStr (DocumentType_value dt));
                                ("document_name", JStr (path_name (document_path req)))]
                               (additional_info req)) |} /\
    json_load out =
      Some (JObj [("signature", JStr (bytes_hex (pss_sign sk (entropy s) (str_bytes (bytes_hex (sha256 b))))));
                  ("metadata", to_dict md)]).
Proof.
  intros E Hs. revert E. unfold sidecar_path. run_M.
  repeat (case_inner; run_M).
  all: intros E; injection E as <- <- <-; cbn in Hs; try discriminate.
  all: repeat match goal with H : Some _ = Some _ |- _ => injection H as H end; subst.
  all: match goal with H : enc ?j = (?out, true) |- _ =>
         assert (Hl : json_load out = Some j)
           by (replace out with (fst (enc j)) by (rewrite H; reflexivity);
               apply json_load_enc; rewrite H; reflexivity) end.
  all: do 5 eexists; (split; [reflexivity|]); (split; [reflexivity|]); (split; [reflexivity|]).
  all: split; [reflexivity|]; split; [reflexivity|].
  all: repeat split; try reflexivity; exact Hl.
Qed.

(** [sign_document] changes nothing but the file at the sidecar path
    (the output path of the request when it is non-empty, [p.sig]
    otherwise), and computes the document hash at most once. *)
Theorem sign_document_frame req s :
  exists s' ev r, sign_document req s = (s', ev, inr r) /\
    km s' = km s /\ clock s' = clock s /\ entropy s' = entropy s /\
    (forall q, q <> sidecar_path req -> fs s' !! q = fs s !! q) /\
    (ev = [] \/ ev = [EvHash (document_path req)]).
Proof.
  unfold sidecar_path. crunch.
  all: eexists _, _, _; (split; [reflexivity|]).
  all: cbn [fs km clock entropy]; (split; [reflexivity|]); (split; [reflexivity|]);
       (split; [reflexivity|]).
  all: split; [intros q Hq; rewrite ?lookup_insert_ne by congruence; reflexivity|].
  all: cbn; auto.
Qed.

(** [verify_batch] changes no state, and its result for each path is what
    [verify_document] alone returns for that path in the initial state. *)
Theorem verify_batch_read_only paths s :
  exists ev rs, verify_batch paths s = (s, ev, inr rs) /\
    Forall2 (fun p r => exists ev1, verify_document (verify_request p) s = (s, ev1, inr r)) paths rs.
Proof.
  induction paths as [|p ps IH].
  - exists [], []. split; [reflexivity|constructor].
  - destruct IH as (ev & rs & E & F). destruct (verify_request_run p s) as (ev1 & r & E1).
    exists (ev1 ++ (ev ++ [])), (r :: rs). cbn [verify_batch]. unfold bind. rewrite E1, E.
    split; [reflexivity|]. constructor; [exists ev1; exact E1|exact F].
Qed.



(** A successful [sign_document] records the hash of the document's
    bytes, the signer's name and e-mail, the clock as signature date and
    the signer's key fingerprint; its additional information takes each
    key from the request when the request has it, and otherwise from the
    detected type and the file name; and the sidecar it wrote reads back
    as the signature and this metadata. *)
Theorem sign_document_success_metadata req s s' ev r :
  sign_document req s = (s', ev, inr r) -> success r = true ->
  exists b dt md sigd out,
    fs s !! document_path req = Some (EFile b) /\
    detect_document_type (document_path req) = Some dt /\
    ev = [EvHash (document_path req)] /\
    metadata r = Some md /\ signature_data r = Some sigd /\
    signed_file_path r = Some (sidecar_path req) /\
    fs s' !! sidecar_path req = Some (EFile out) /\
    meta_signer_name md = JStr (signer_name req) /\
    meta_signer_email md = JStr (signer_email req) /\
    signature_date md = clock s /\
    document_hash md = JStr (bytes_hex (sha256 b)) /\
    key_fingerprint md = match get_public_key_fingerprint (km s) with
                         | Some f => JStr f | None => JNull end /\
    (exists ai, meta_additional_info md = JObj ai /\
       forall k, dict_lookup k ai =
         match dict_lookup k (additional_info req) with
         | Some v => Some v
         | None => dict_lookup k [("document_type", JStr (DocumentType_value dt));
                                  ("document_name", JStr (path_name (document_path req)))]
         end) /\
    json_load out = Some (JObj [("signature", JStr (bytes_hex sigd)); ("metadata", to_dict md)]).
Proof.
  intros E Hs.
  destruct (sign_document_success_inv req s s' ev r E Hs)
    as (b & dt & sk & md & out & Hb & Hdt & Hsk & -> & -> & Hmd & Hsf & Hsd & Emd & Hl).
  subst md. eexists b, dt, _, _, out.
  do 6 (split; [eassumption || reflexivity|]).
  split; [cbn [fs set_fs]; apply lookup_insert_eq|].
  do 5 (split; [reflexivity|]).
  split; [|exact Hl].
  eexists; split; [reflexivity|]. intros k. apply dict_lookup_merge, base_info_nodup.
Qed.

(** After a successful [sign_document], [extract_metadata_from_signature]
    on the sidecar returns exactly the metadata of the result. *)
Theorem sign_then_extract_metadata req s s' ev r :
  sign_document req s = (s', ev, inr r) -> success r = true ->
  exists md, metadata r = Some md /\
    extract_metadata_from_signature (sidecar_path req) s' = (s', [], inr (Some md)).
Proof.
  intros E Hs.
  destruct (sign_document_success_inv req s s' ev r E Hs)
    as (b & dt & sk & md & out & Hb & Hdt & Hsk & -> & -> & Hmd & Hsf & Hsd & Emd & Hl).
  exists md. split; [exact Hmd|].
  unfold extract_metadata_from_signature. step_M. repeat (rewrite lookup_insert_eq; step_M).
  rewrite Hl. step_M. rewrite getitem_package_metadata, from_dict_to_dict. reflexivity.
Qed.

(** [get_signature_info] on a document just signed into [p.sig] shows
    the signer, the date, the algorithm and the first 16 hex digits of
    the document's hash followed by [...]. *)
Theorem sign_then_signature_info req s s' ev r :
  sign_document req s = (s', ev, inr r) -> success r = true ->
  nonempty (output_path req) = None ->
  exists b md, fs s !! document_path req = Some (EFile b) /\ metadata r = Some md /\
    get_signature_info (document_path req) s' =
      (s', [], inr (JObj [("has_signature", JBool true);
                          ("signer_name", JStr (signer_name req));
                          ("signer_email", JStr (signer_email req));
                          ("signature_date", JStr (isoformat (clock s)));
                          ("algorithm", JStr "RSA-PSS with SHA-256");
                          ("document_hash", JStr (substring 0 16 (bytes_hex (sha256 b)) ++ "..."));
                          ("additional_info", meta_additional_info md)])).
Proof.
  intros E Hs Ho.
  destruct (sign_document_success_inv req s s' ev r E Hs)
    as (b & dt & sk & md & out & Hb & Hdt & Hsk & -> & -> & Hmd & Hsf & Hsd & Emd & Hl).
  exists b, md. split; [exact Hb|]. split; [exact Hmd|].
  unfold sidecar_path in *. rewrite Ho in *. unfold get_signature_file_path in *.
  unfold get_signature_info, extract_metadata_from_signature. step_M.
  repeat (rewrite lookup_insert_eq; step_M). rewrite Hl. step_M.
  rewrite getitem_package_metadata, from_dict_to_dict. step_M. subst md. reflexivity.
Qed.

(** ** Directories and key files *)

Lemma length_list_ascii_of_string p : List.length (list_ascii_of_string p) = String.length p.
Proof. induction p as [|c p IH]; cbn; [reflexivity|]. rewrite IH. reflexivity. Qed.

Lemma dir_prefixes_shorter cs seen d :
  In d (dir_prefixes cs seen) -> (String.length d < List.length seen + List.length cs)%nat.
Proof.
  revert seen. induction cs as [|c r IH]; intros seen H; [destruct H|].
  cbn [dir_prefixes] in H. cbn [List.length].
  destruct (Ascii.eqb c "/"%char); [destruct seen as [|c0 seen0]|].
  - apply IH in H. cbn in H. lia.
  - destruct H as [<- | H].
    + rewrite length_string_of_list_ascii, length_rev. cbn. lia.
    + apply IH in H. cbn in H |- *. lia.
  - apply IH in H. cbn in H. lia.
Qed.

Lemma parent_dirs_shorter p d : In d (parent_dirs p) -> (String.length d < String.length p)%nat.
Proof.
  intros H. apply dir_prefixes_shorter in H. rewrite length_list_ascii_of_string in H. exact H.
Qed.

Lemma not_in_own_parent_dirs p : ~ In p (parent_dirs p).
Proof. intros H. apply parent_dirs_shorter in H. lia. Qed.


(** [make_dirs] changes the entries of the directories it walks, and only
    those; it completes exactly when none of them is a file, and then all
    of them are directories. *)
Lemma make_dirs_spec ds parent s :
  exists f r, make_dirs ds parent s = (set_fs s f, [], r) /\
    (forall q, ~ In q ds -> f !! q = fs s !! q) /\
    (r = inr tt <-> Forall (no_file_at (fs s)) ds) /\
    (r = inr tt -> Forall (fun d => f !! d = Some EDir) ds).
Proof.
  revert s. induction ds as [|d ds IH]; intros s.
  - exists (fs s), (inr tt). split; [destruct s; reflexivity|].
    split; [reflexivity|]. split; [split; constructor|constructor].
  - cbn [make_dirs]. unfold bind, gets.
    destruct (fs s !! d) as [[b|]|] eqn:Ed.
    + exists (fs s), (inl (if String.eqb d parent then FileExistsError parent else NotADirectoryError parent)).
      split; [destruct s; reflexivity|]. split; [reflexivity|]. split; [|discriminate].
      split; [discriminate|]. intros H. inversion H as [|? ? Hd]; subst. exfalso. exact (Hd b Ed).
    + destruct (IH s) as (f & r & E & Hq & Hr & Hdir). rewrite E.
      exists f, r. split; [reflexivity|].
      split; [intros q Hn; apply Hq; intros Hin; apply Hn; right; exact Hin|].
      split.
      * rewrite Hr. split; [intros H; constructor; [intros b'; congruence|exact H]|].
        intros H. inversion H; assumption.
      * intros Hok. constructor; [|exact (Hdir Hok)].
        destruct (in_dec string_dec d ds) as [Hin|Hn].
        -- exact (proj1 (List.Forall_forall _ _) (Hdir Hok) d Hin).
        -- rewrite Hq by exact Hn. exact Ed.
    + unfold modify.
      destruct (IH (set_fs s (<[d := EDir]> (fs s)))) as (f & r & E & Hq & Hr & Hdir).
      cbn [fs set_fs] in E, Hq, Hr, Hdir. rewrite E.
      exists f, r. split; [reflexivity|].
      split.
      { intros q Hn. rewrite Hq by (intros Hin; apply Hn; right; exact Hin).
        apply lookup_insert_ne. intros ->. apply Hn. left. reflexivity. }
      split.
      * rewrite Hr. split.
        -- intros H. constructor; [intros b'; congruence|].
           eapply Forall_impl; [exact H|]. intros d' Hd' b' Hb'. apply (Hd' b').
           destruct (string_dec d d') as [<-|Hne]; [congruence|].
           rewrite lookup_insert_ne by exact Hne. exact Hb'.
        -- intros H. inversion H as [|? ? _ H']; subst.
           eapply Forall_impl; [exact H'|]. intros d' Hd' b' Hb'.
           destruct (string_dec d d') as [<-|Hne]; [rewrite lookup_insert_eq in Hb'; discriminate|].
           rewrite lookup_insert_ne in Hb' by exact Hne. exact (Hd' b' Hb').
      * intros Hok. constructor; [|exact (Hdir Hok)].
        destruct (in_dec string_dec d ds) as [Hin|Hn].
        -- exact (proj1 (List.Forall_forall _ _) (Hdir Hok) d Hin).
        -- rewrite Hq by exact Hn. apply lookup_insert_eq.
Qed.

Ltac key_M := cbv beta iota zeta delta [ret bind raise lift gets modify try_catch path_exists
  read_file set_fs set_km negb with_km generate_key_pair save_private_key save_public_key
  mkdir_parent write_file load_private_key verify_key_files_exist load_keys signer_init
  generate_and_save_keys]; cbn [fs km clock entropy private_key public_key key_size app].

Lemma KeyManager_init_2048 :
  KeyManager_init 2048 = inr {| key_size := 2048; private_key := None; public_key := None |}.
Proof. reflexivity. Qed.

Lemma generate_and_save_keys_ok be priv pub pw s :
  priv <> pub -> ~ In priv (parent_dirs pub) -> ~ In pub (parent_dirs priv) ->
  fs s !! priv <> Some EDir -> fs s !! pub <> Some EDir ->
  Forall (no_file_at (fs s)) (parent_dirs priv ++ parent_dirs pub) ->
  exists f, generate_and_save_keys be priv pub 2048 pw s = (set_fs s f, [], inr true) /\
    f !! priv = Some (EFile (private_pem be (rsa_generate be 2048 (entropy s))
                               (if password_truthy pw then pw else None) (entropy s))) /\
    f !! pub = Some (EFile (pem_spki (priv_public (rsa_generate be 2048 (entropy s))))) /\
    (forall q, ~ In q (parent_dirs priv ++ parent_dirs pub) -> q <> priv -> q <> pub ->
       f !! q = fs s !! q).
Proof.
  intros Hne Hpp Hpq Hd1 Hd2 Hnf. apply Forall_app in Hnf as [Hnf1 Hnf2].
  unfold generate_and_save_keys. rewrite KeyManager_init_2048. key_M.
  match goal with |- context [make_dirs (parent_dirs priv) ?par ?st] =>
    destruct (make_dirs_spec (parent_dirs priv) par st) as (f1 & r1 & E1 & Hq1 & Hr1 & Hdir1) end.
  rewrite E1. cbn [fs] in Hq1, Hr1, Hdir1.
  assert (r1 = inr tt) by (apply Hr1; exact Hnf1). subst r1. specialize (Hdir1 eq_refl).
  key_M. rewrite (Hq1 priv (not_in_own_parent_dirs priv)).
  assert (Hnf2' : Forall (no_file_at (<[priv := EFile (private_pem be (rsa_generate be 2048 (entropy s))
                               (if password_truthy pw then pw else None) (entropy s))]> f1)) (parent_dirs pub)).
  { apply List.Forall_forall. intros d Hin b Hb.
    rewrite lookup_insert_ne in Hb by (intros ->; exact (Hpp Hin)).
    destruct (in_dec string_dec d (parent_dirs priv)) as [Hin1|Hn1].
    - rewrite (proj1 (List.Forall_forall _ _) Hdir1 d Hin1) in Hb. discriminate.
    - rewrite Hq1 in Hb by exact Hn1.
      exact (proj1 (List.Forall_forall _ _) Hnf2 d Hin b Hb). }
  destruct (fs s !! priv) as [[]|] eqn:Ep; [| congruence |]; key_M.
  all: match goal with |- context [make_dirs ?ds ?par ?st] =>
    destruct (make_dirs_spec ds par st) as (f2 & r2 & E2 & Hq2 & Hr2 & Hdir2) end.
  all: rewrite E2; cbn [fs] in Hq2, Hr2, Hdir2.
  all: assert (r2 = inr tt) by (apply Hr2; exact Hnf2'); subst r2; specialize (Hdir2 eq_refl).
  all: key_M.
  all: assert (Hp2 : f2 !! pub = fs s !! pub)
         by (rewrite Hq2 by apply not_in_own_parent_dirs;
             rewrite lookup_insert_ne by congruence; apply Hq1; exact Hpq).
  all: rewrite Hp2; destruct (fs s !! pub) as [[]|] eqn:Ep2; [|congruence|]; key_M.
  all: eexists; split; [reflexivity|].
  all: split; [rewrite lookup_insert_ne by congruence; rewrite Hq2 by exact Hpp;
               apply lookup_insert_eq|].
  all: split; [apply lookup_insert_eq|].
  all: intros q Hq Hq1' Hq2'. 
  all: rewrite lookup_insert_ne by congruence.
  all: rewrite Hq2 by (intros Hin; apply Hq; apply in_or_app; right; exact Hin).
  all: rewrite lookup_insert_ne by congruence.
  all: apply Hq1; intros Hin; apply Hq; apply in_or_app; left; exact Hin.
Qed.

(** [KeyManager.generate_and_save_keys] with a 2048-bit size, when the
    two key paths are distinct, neither is a directory nor a parent
    directory of the other, and no regular file stands where a parent
    directory is needed: it returns [True] without raising, writes the
    private key (encrypted with a non-empty password, in the clear
    otherwise) and the public half of the key generated from the random
    source, changes only the two key files and their parent directories,
    and keeps the key manager it runs in. *)
Theorem generate_and_save_keys_writes be priv pub pw s :
  priv <> pub -> ~ In priv (parent_dirs pub) -> ~ In pub (parent_dirs priv) ->
  fs s !! priv <> Some EDir -> fs s !! pub <> Some EDir ->
  Forall (no_file_at (fs s)) (parent_dirs priv ++ parent_dirs pub) ->
  exists f, generate_and_save_keys be priv pub 2048 pw s = (set_fs s f, [], inr true) /\
    f !! priv = Some (EFile (private_pem be (rsa_generate be 2048 (entropy s))
                               (if password_truthy pw then pw else None) (entropy s))) /\
    f !! pub = Some (EFile (pem_spki (priv_public (rsa_generate be 2048 (entropy s))))) /\
    (forall q, ~ In q (parent_dirs priv ++ parent_dirs pub) -> q <> priv -> q <> pub ->
       f !! q = fs s !! q).
Proof. apply generate_and_save_keys_ok. Qed.

Lemma load_private_key_run be path pw s :
  load_private_key be path pw s =
    match fs s !! path with
    | Some (EFile pem) =>
        match load_pem_private_key be pem pw with
        | Some sk => (set_km s {| key_size := key_size (km s); private_key := Some sk;
                                  public_key := Some (priv_public sk) |}, [], inr (Some sk))
        | None => (s, [], inr None)
        end
    | _ => (s, [], inr None)
    end.
Proof.
  unfold load_private_key. key_M.
  destruct (fs s !! path) as [[pem|]|] eqn:E; key_M; repeat (rewrite E; key_M);
    [|reflexivity|reflexivity].
  destruct (load_pem_private_key be pem pw); reflexivity.
Qed.

Lemma save_public_key_ok path s k :
  public_key (km s) = Some k -> fs s !! path <> Some EDir ->
  Forall (no_file_at (fs s)) (parent_dirs path) ->
  exists f, save_public_key path s = (set_fs s (<[path := EFile (pem_spki k)]> f), [], inr true) /\
    (forall q, ~ In q (parent_dirs path) -> f !! q = fs s !! q).
Proof.
  intros Hk Hd Hnf. unfold save_public_key, mkdir_parent, write_file. key_M. rewrite Hk. key_M.
  destruct (make_dirs_spec (parent_dirs path) (List.last (parent_dirs path) "") s)
    as (f & r & E & Hq & Hr & Hdir).
  rewrite E. assert (r = inr tt) by (apply Hr; exact Hnf). subst r. key_M.
  rewrite (Hq path (not_in_own_parent_dirs path)).
  destruct (fs s !! path) as [[]|] eqn:Ep; [|congruence|]; key_M;
    exists f; (split; [reflexivity|exact Hq]).
Qed.

(** [KeyManager.load_private_key] never raises: for a regular file that
    the backend parses with the password, it stores the private key and
    replaces the public key by the private key's public half (whatever
    public key was loaded before); otherwise it returns [None] and changes
    nothing. *)
Theorem load_private_key_spec be path pw s :
  load_private_key be path pw s =
    match fs s !! path with
    | Some (EFile pem) =>
        match load_pem_private_key be pem pw with
        | Some sk => (set_km s {| key_size := key_size (km s); private_key := Some sk;
                                  public_key := Some (priv_public sk) |}, [], inr (Some sk))
        | None => (s, [], inr None)
        end
    | _ => (s, [], inr None)
    end.
Proof. apply load_private_key_run. Qed.

(** [KeyManager.generate_and_save_keys] never raises and works on a key
    manager of its own: the caller's key manager, the clock and the random
    source are unchanged, and with a key size other than 2048, 3072 or
    4096 it returns [False] without touching the file system. *)
Theorem generate_and_save_keys_local be priv pub ks pw s :
  exists s' ok, generate_and_save_keys be priv pub ks pw s = (s', [], inr ok) /\
    km s' = km s /\ clock s' = clock s /\ entropy s' = entropy s /\
    (existsb (Z.eqb ks) [2048; 3072; 4096] = false -> s' = s /\ ok = false).
Proof.
  unfold generate_and_save_keys, KeyManager_init.
  destruct (existsb (Z.eqb ks) [2048; 3072; 4096]) eqn:Eks; key_M.
  2: { eexists _, _; split; [reflexivity|]. destruct s; cbn; auto. }
  repeat ((match goal with |- context [make_dirs ?ds ?par ?st] =>
             let f := fresh "f" in let r := fresh "r" in
             destruct (make_dirs_spec ds par st) as (f & r & -> & _ & _ & _) end
           || case_inner); key_M).
  all: eexists _, _; split; [reflexivity|]; cbn; repeat split; discriminate.
Qed.

Lemma signer_init_fresh be priv pub pw s :
  (fs s !! priv = None \/ fs s !! pub = None) ->
  priv <> pub -> ~ In priv (parent_dirs pub) -> ~ In pub (parent_dirs priv) ->
  fs s !! priv <> Some EDir -> fs s !! pub <> Some EDir ->
  Forall (no_file_at (fs s)) (parent_dirs priv ++ parent_dirs pub) ->
  (forall sk salt, load_pem_private_key be
     (private_pem be sk (if password_truthy pw then pw else None) salt) pw = Some sk) ->
  exists s', signer_init be priv pub pw s = (s', [], inr tt) /\
    km s' = {| key_size := 2048; private_key := Some (rsa_generate be 2048 (entropy s));
               public_key := Some (priv_public (rsa_generate be 2048 (entropy s))) |} /\
    fs s' !! priv = Some (EFile (private_pem be (rsa_generate be 2048 (entropy s))
                                   (if password_truthy pw then pw else None) (entropy s))) /\
    fs s' !! pub = Some (EFile (pem_spki (priv_public (rsa_generate be 2048 (entropy s))))) /\
    (forall q, ~ In q (parent_dirs priv ++ parent_dirs pub) -> q <> priv -> q <> pub ->
       fs s' !! q = fs s !! q) /\
    clock s' = clock s /\ entropy s' = entropy s.
Proof.
  intros Hmiss Hne Hpp Hpq Hd1 Hd2 Hnf Hrt.
  destruct (generate_and_save_keys_ok be priv pub pw (set_km s KeyManager_new) Hne Hpp Hpq Hd1 Hd2 Hnf)
    as (f & Eg & Hf1 & Hf2 & Hfq).
  unfold set_km in Eg. cbn [fs km clock entropy] in Eg, Hf1, Hf2, Hfq.
  unfold signer_init, load_keys, verify_key_files_exist.
  cbv beta iota zeta delta [ret bind raise gets modify path_exists set_km set_fs negb].
  cbn [fs km clock entropy app].
  destruct (fs s !! priv) as [e1|] eqn:E1; cbv beta iota; cbn [fs km clock entropy app];
    [destruct (fs s !! pub) as [e2|] eqn:E2; cbv beta iota; cbn [fs km clock entropy app]|].
  1: destruct Hmiss as [H|H]; discriminate.
  all: rewrite Eg.
  all: cbv beta iota. all: rewrite load_private_key_run; cbn [fs set_fs km clock entropy key_size] in *.
  all: rewrite Hf1, Hrt; cbv beta iota; cbn [app].
  all: eexists; split; [reflexivity|]; cbn [fs km clock entropy].
  all: split; [reflexivity|]; split; [exact Hf1|]; split; [exact Hf2|].
  all: split; [exact Hfq|]; split; reflexivity.
Qed.

(** [DocumentSigner(private_key_path, public_key_path, password)] when a
    key file is missing: it generates a 2048-bit key pair from the random
    source, creates the missing directories, writes the private key
    (encrypted when the password is non-empty) and the public key, which
    replaces an existing private key file, and loads the private key
    back; the signer then holds the new private key and its public half.
    Nothing else in the file system changes. *)
Theorem signer_init_generates be priv pub pw s :
  (fs s !! priv = None \/ fs s !! pub = None) ->
  priv <> pub -> ~ In priv (parent_dirs pub) -> ~ In pub (parent_dirs priv) ->
  fs s !! priv <> Some EDir -> fs s !! pub <> Some EDir ->
  Forall (no_file_at (fs s)) (parent_dirs priv ++ parent_dirs pub) ->
  (forall sk salt, load_pem_private_key be
     (private_pem be sk (if password_truthy pw then pw else None) salt) pw = Some sk) ->
  exists s', signer_init be priv pub pw s = (s', [], inr tt) /\
    km s' = {| key_size := 2048; private_key := Some (rsa_generate be 2048 (entropy s));
               public_key := Some (priv_public (rsa_generate be 2048 (entropy s))) |} /\
    fs s' !! priv = Some (EFile (private_pem be (rsa_generate be 2048 (entropy s))
                                   (if password_truthy pw then pw else None) (entropy s))) /\
    fs s' !! pub = Some (EFile (pem_spki (priv_public (rsa_generate be 2048 (entropy s))))) /\
    (forall q, ~ In q (parent_dirs priv ++ parent_dirs pub) -> q <> priv -> q <> pub ->
       fs s' !! q = fs s !! q) /\
    clock s' = clock s /\ entropy s' = entropy s.
Proof. apply signer_init_fresh. Qed.

(** [DocumentSigner(...)] when both key files exist: nothing is written
    and the public key file is never read; the signer holds the private
    key of the private key file and its public half, and it raises
    [ValueError] when that file is a directory or does not parse with the
    password. *)
Theorem signer_init_existing_keys be priv pub pw s :
  fs s !! priv <> None -> fs s !! pub <> None ->
  signer_init be priv pub pw s =
    match fs s !! priv with
    | Some (EFile pem) =>
        match load_pem_private_key be pem pw with
        | Some sk => (set_km s {| key_size := 2048; private_key := Some sk;
                                  public_key := Some (priv_public sk) |}, [], inr tt)
        | None => (set_km s KeyManager_new, [],
                   inl (ValueError "No se pudieron cargar las claves de firma"))
        end
    | _ => (set_km s KeyManager_new, [], inl (ValueError "No se pudieron cargar las claves de firma"))
    end.
Proof.
  intros H1 H2.
  unfold signer_init, load_keys, verify_key_files_exist.
  cbv beta iota zeta delta [ret bind raise gets modify path_exists set_km set_fs negb].
  cbn [fs km clock entropy app].
  destruct (fs s !! priv) as [e1|] eqn:E1; [|congruence]; cbv beta iota; cbn [fs km clock entropy app].
  destruct (fs s !! pub) as [e2|] eqn:E2; [|congruence]; cbv beta iota; cbn [fs km clock entropy app].
  rewrite load_private_key_run. cbn [fs km key_size]. rewrite E1.
  destruct e1 as [pem|]; [|reflexivity].
  destruct (load_pem_private_key be pem pw); reflexivity.
Qed.

(** [extract_metadata_from_signature] never raises and changes nothing. *)
Lemma extract_metadata_run p s :
  exists o, extract_metadata_from_signature p s = (s, [], inr o).
Proof.
  unfold extract_metadata_from_signature. step_M.
  repeat (case_inner; step_M); eexists; reflexivity.
Qed.

Lemma extract_metadata_missing p s :
  fs s !! p = None -> extract_metadata_from_signature p s = (s, [], inr None).
Proof.
  intros E. unfold extract_metadata_from_signature, read_file. step_M.
  repeat (rewrite E; step_M). reflexivity.
Qed.

(** A public key written by [save_public_key] is read back by
    [load_public_key] of any key manager, when the backend parses the
    PEM it writes. *)
Theorem save_then_load_public_key path s k m :
  public_key (km s) = Some k -> fs s !! path <> Some EDir ->
  Forall (no_file_at (fs s)) (parent_dirs path) ->
  load_pem_public_key (pem_spki k) = Some k ->
  exists s', save_public_key path s = (s', [], inr true) /\
    load_public_key path (set_km s' m) = (set_km s' (set_public_key m k), [], inr (Some k)).
Proof.
  intros Hk Hd Hnf Hp.
  destruct (save_public_key_ok path s k Hk Hd Hnf) as (f & E & _).
  eexists; split; [exact E|]. rewrite load_public_key_eqn.
  unfold set_km, set_fs; cbn [fs km]. rewrite lookup_insert_eq, Hp. reflexivity.
Qed.

(** [save_public_key] returns [False] without touching the key file when
    a regular file stands where one of its parent directories should be;
    the key manager and the files outside the parent directories are
    unchanged, and no exception escapes. *)
Theorem save_public_key_blocked path s k d b :
  public_key (km s) = Some k -> In d (parent_dirs path) -> fs s !! d = Some (EFile b) ->
  exists f, save_public_key path s = (set_fs s f, [], inr false) /\
    forall q, ~ In q (parent_dirs path) -> f !! q = fs s !! q.
Proof.
  intros Hk Hin Hb. unfold save_public_key, mkdir_parent, write_file. key_M. rewrite Hk. key_M.
  destruct (make_dirs_spec (parent_dirs path) (List.last (parent_dirs path) "") s)
    as (f & r & E & Hq & Hr & _).
  rewrite E. destruct r as [e|[]].
  - key_M. exists f; split; [reflexivity|exact Hq].
  - exfalso. assert (Hall : Forall (no_file_at (fs s)) (parent_dirs path)) by (apply Hr; reflexivity).
    rewrite List.Forall_forall in Hall. exact (Hall d Hin b Hb).
Qed.

(** [get_signature_info] changes nothing, and it raises exactly when the
    sidecar yields metadata whose [document_hash] is not a string. *)
Theorem get_signature_info_raises p s :
  exists r, get_signature_info p s = (s, [], r) /\
    ((exists e, r = inl e) <->
     exists md, extract_metadata_from_signature (p ++ ".sig") s = (s, [], inr (Some md)) /\
       forall t, document_hash md <> JStr t).
Proof.
  destruct (extract_metadata_run (p ++ ".sig") s) as [o Eo].
  unfold get_signature_info. step_M.
  destruct (fs s !! (p ++ ".sig")%string) eqn:E; step_M.
  - rewrite Eo. step_M. destruct o as [md|]; step_M.
    + destruct (document_hash md) eqn:Eh; step_M; eexists; (split; [reflexivity|]); split.
      all: try (intros [? ?]; discriminate).
      all: try (intros _; exists md; split; [reflexivity|]; intros t; rewrite Eh; discriminate).
      all: try (intros _; eexists; reflexivity).
      intros (md' & Em & Hn). try rewrite Eo in Em. injection Em; intros; subst.
      exfalso. exact (Hn _ Eh).
    + eexists; split; [reflexivity|]. split; [intros [? ?]; discriminate|].
      intros (md' & Em & _). try rewrite Eo in Em. discriminate.
  - eexists; split; [reflexivity|]. split; [intros [? ?]; discriminate|].
    intros (md' & Em & _). rewrite extract_metadata_missing in Em by exact E. discriminate.
Qed.

(** A fresh [DocumentSigner] followed by a [SignatureVerifier] on its
    public key file: the verifier holds the signer's public key, so both
    report the same fingerprint, and the verifier writes no file. *)
Theorem fresh_signer_verifier_key be priv pub pw s :
  (fs s !! priv = None \/ fs s !! pub = None) ->
  priv <> pub -> ~ In priv (parent_dirs pub) -> ~ In pub (parent_dirs priv) ->
  fs s !! priv <> Some EDir -> fs s !! pub <> Some EDir ->
  Forall (no_file_at (fs s)) (parent_dirs priv ++ parent_dirs pub) ->
  (forall sk salt, load_pem_private_key be
     (private_pem be sk (if password_truthy pw then pw else None) salt) pw = Some sk) ->
  pub <> EmptyString ->
  load_pem_public_key (pem_spki (priv_public (rsa_generate be 2048 (entropy s)))) =
    Some (priv_public (rsa_generate be 2048 (entropy s))) ->
  exists s1 s2, signer_init be priv pub pw s = (s1, [], inr tt) /\
    verifier_init (Some pub) s1 = (s2, [], inr tt) /\
    fs s2 = fs s1 /\
    public_key (km s2) = public_key (km s1) /\
    get_public_key_fingerprint (km s2) = get_public_key_fingerprint (km s1).
Proof.
  intros Hmiss Hne Hpp Hpq Hd1 Hd2 Hnf Hrt Hpe Hpk.
  destruct (signer_init_fresh be priv pub pw s Hmiss Hne Hpp Hpq Hd1 Hd2 Hnf Hrt)
    as (s1 & E1 & Hkm & _ & Hf2 & _).
  exists s1; eexists; split; [exact E1|]. split; [rewrite verifier_init_eqn; reflexivity|].
  assert (Hn : nonempty (Some pub) = Some pub).
  { unfold nonempty. destruct (String.eqb_spec pub EmptyString); congruence. }
  rewrite Hn, Hf2, Hpk. unfold set_km; cbn [fs km public_key set_public_key].
  split; [reflexivity|]. unfold get_public_key_fingerprint. rewrite Hkm. cbn. split; reflexivity.
Qed.

(** [SignatureMetadata.from_dict(to_dict(md))] gives back [md]. *)
Theorem to_dict_from_dict_roundtrip md : from_dict (to_dict md) = inr md.
Proof. apply from_dict_to_dict. Qed.

(** [SignatureMetadata.from_dict] succeeds only on a dict that has the
    four keys without defaults: [signer_name], [signer_email],
    [signature_date] and [document_hash]. *)
Theorem from_dict_requires d md :
  from_dict d = inr md ->
  exists kvs, d = JObj kvs /\
    Forall (fun k => dict_lookup k kvs <> None)
      ["signer_name"; "signer_email"; "signature_date"; "document_hash"]%string.
Proof.
  intros H. destruct d as [| | | | |kvs|]; try discriminate H.
  exists kvs; split; [reflexivity|].
  unfold from_dict, getitem in H.
  destruct (dict_lookup "signer_name" kvs) eqn:E1; [|discriminate H].
  destruct (dict_lookup "signer_email" kvs) eqn:E2; [|discriminate H].
  destruct (dict_lookup "signature_date" kvs) eqn:E3; [|discriminate H].
  cbn [sum_bind] in H. destruct (py_fromisoformat j1); [discriminate H|].
  cbn [sum_bind] in H.
  destruct (dict_lookup "document_hash" kvs) eqn:E4; [|discriminate H].
  repeat constructor; congruence.
Qed.

End Signature.

(** * The model on concrete inputs *)

(** The toy primitives meet the assumptions of the section. *)
Lemma toy_iso_roundtrip : forall d, Toy.fromisoformat (Toy.isoformat d) = Some d.
Proof. reflexivity. Qed.

Lemma toy_pss_correct : forall sk salt m,
  Toy.pss_verify (priv_public sk) (Toy.pss_sign sk salt m) m = true.
Proof. intros sk salt m. unfold Toy.pss_verify, Toy.pss_sign. by apply bool_decide_eq_true. Qed.

Lemma be_digits_range fuel z acc :
  Forall byte_range acc -> Forall byte_range (be_digits fuel z acc).
Proof.
  revert z acc. induction fuel as [|f IH]; intros z acc H; cbn; [exact H|].
  destruct (z <=? 0); [exact H|]. apply IH. constructor; [|exact H].
  unfold byte_range. apply Z.mod_pos_bound. lia.
Qed.

Lemma toy_pss_sign_bytes : forall sk salt m,
  Forall byte_range m -> Forall byte_range (Toy.pss_sign sk salt m).
Proof.
  intros sk salt m H. unfold Toy.pss_sign. constructor.
  - unfold byte_range. apply Z.mod_pos_bound. lia.
  - apply Forall_app. split; [|exact H]. apply be_digits_range. constructor.
Qed.

Local Abbreviation ada_pub := {| rsa_n := 3233; rsa_e := 17 |}.
Local Abbreviation other_pub := {| rsa_n := 3127; rsa_e := 3 |}.
Local Abbreviation ada_key := {| priv_public := ada_pub; rsa_d := 2753 |}.
Local Abbreviation ada_km :=
  {| key_size := 2048; private_key := Some ada_key; public_key := Some ada_pub |}.
Local Abbreviation ada_req := {| document_path := "a.txt"%string; signer_name := "Ada"%string;
  signer_email := "ada@example.com"%string; output_path := None; additional_info := [] |}.
Local Abbreviation ada_st0 := {| fs := <["a.txt"%string := EFile (str_bytes "abc")]> ∅;
  km := ada_km; clock := "2026-10-19T10:00:00"%string; entropy := 7 |}.
Local Abbreviation toy_sign := (sign_document Toy.isoformat Toy.pss_sign).
Local Abbreviation toy_verify :=
  (verify_document Toy.fromisoformat Toy.pss_verify (Toy.load_pem_public_key [ada_pub; other_pub])).

(** Witness of C1: Ada signs "abc" in a.txt. *)
Lemma sign_then_verify_valid_witness :
  (additional_info ada_req = [] /\ output_path ada_req = None /\
   fs ada_st0 !! document_path ada_req = Some (EFile (str_bytes "abc")) /\
   detect_document_type (document_path ada_req) = Some TXT /\
   private_key (km ada_st0) = Some ada_key /\
   fs ada_st0 !! get_signature_file_path (document_path ada_req) <> Some EDir) /\
  exists s1 ev1 r1, toy_sign ada_req ada_st0 = (s1, ev1, inr r1) /\
    success r1 = true /\ status r1 = Some VALID.
Proof.
  assert (Hsig : fs ada_st0 !! get_signature_file_path (document_path ada_req) <> Some EDir)
    by (vm_compute; discriminate).
  split; [repeat split; try reflexivity; exact Hsig|].
  destruct (sign_then_verify_valid Toy.isoformat Toy.fromisoformat Toy.pss_sign Toy.pss_verify
              (Toy.load_pem_public_key [ada_pub; other_pub])
              toy_iso_roundtrip toy_pss_correct toy_pss_sign_bytes
              ada_req ada_st0 ada_key TXT (str_bytes "abc")
              ltac:(reflexivity) ltac:(reflexivity) ltac:(vm_compute; reflexivity)
              ltac:(vm_compute; reflexivity) ltac:(reflexivity) Hsig)
    as (s1 & ev1 & r1 & E & Hs & Hst & _).
  exists s1, ev1, r1. auto.
Defined.

(** Witness of C2. *)
Lemma tampered_document_status_witness :
  (additional_info ada_req = [] /\ output_path ada_req = None /\
   fs ada_st0 !! document_path ada_req = Some (EFile (str_bytes "abc")) /\
   detect_document_type (document_path ada_req) = Some TXT /\
   private_key (km ada_st0) = Some ada_key /\
   fs ada_st0 !! get_signature_file_path (document_path ada_req) <> Some EDir) /\
  exists s1 ev1 r1, toy_sign ada_req ada_st0 = (s1, ev1, inr r1) /\ success r1 = true.
Proof.
  assert (Hsig : fs ada_st0 !! get_signature_file_path (document_path ada_req) <> Some EDir)
    by (vm_compute; discriminate).
  split; [repeat split; try reflexivity; exact Hsig|].
  destruct (tampered_document_status Toy.isoformat Toy.fromisoformat Toy.pss_sign Toy.pss_verify
              (Toy.load_pem_public_key [ada_pub; other_pub])
              toy_iso_roundtrip toy_pss_sign_bytes
              ada_req ada_st0 ada_key TXT (str_bytes "abc")
              ltac:(reflexivity) ltac:(reflexivity) ltac:(vm_compute; reflexivity)
              ltac:(vm_compute; reflexivity) ltac:(reflexivity) Hsig)
    as (s1 & ev1 & r1 & E & Hs & _).
  exists s1, ev1, r1. auto.
Defined.

(** C2, the concrete scenario of the specification: "abc" signed by Ada,
    then "x" appended; a verifier constructed without a key and called
    without a key path returns KEY_MISMATCH, not TAMPERED, although the
    two hex digests differ. *)
Lemma tampered_document_status_counterexample :
  bytes_hex (sha256 (str_bytes "abcx")) <> bytes_hex (sha256 (str_bytes "abc")) /\
  match toy_sign ada_req ada_st0 with
  | (s1, _, inr r1) =>
      success r1 = true /\
      match toy_verify (verify_request "a.txt")
              {| fs := <["a.txt"%string := EFile (str_bytes "abcx")]> (fs s1);
                 km := KeyManager_new; clock := "2026-10-19T10:05:00"%string; entropy := 0 |} with
      | (_, _, inr r2) => success r2 = false /\ status r2 = Some KEY_MISMATCH
      | _ => False
      end
  | _ => False
  end.
Proof.
  split; [vm_compute; discriminate|].
  vm_compute. split; [reflexivity|]. split; reflexivity.
Qed.


(** C4: for a loaded key the fingerprint is not the hex SHA-256 of the
    DER SubjectPublicKeyInfo. *)
Lemma public_key_fingerprint_pem_counterexample :
  get_public_key_fingerprint ada_km <> Some (bytes_hex (sha256 (spki_der ada_pub))).
Proof. vm_compute. discriminate. Qed.

(** Witness of C6: a .doc document. *)
Lemma unsupported_type_rejected_witness :
  detect_document_type "a.doc" = None /\
  exists r, toy_sign {| document_path := "a.doc"%string; signer_name := "Ada"%string;
      signer_email := "ada@example.com"%string; output_path := None; additional_info := [] |}
    {| fs := <["a.doc"%string := EFile (str_bytes "abc")]> ∅;
       km := ada_km; clock := "2026-10-19T10:00:00"%string; entropy := 7 |} =
    ({| fs := <["a.doc"%string := EFile (str_bytes "abc")]> ∅;
       km := ada_km; clock := "2026-10-19T10:00:00"%string; entropy := 7 |}, [], inr r) /\
    success r = false.
Proof.
  split; [reflexivity|].
  destruct (unsupported_type_rejected Toy.isoformat Toy.pss_sign
              {| document_path := "a.doc"%string; signer_name := "Ada"%string;
                 signer_email := "ada@example.com"%string; output_path := None;
                 additional_info := [] |}
              {| fs := <["a.doc"%string := EFile (str_bytes "abc")]> ∅;
                 km := ada_km; clock := "2026-10-19T10:00:00"%string; entropy := 7 |}
              ltac:(reflexivity)) as (r & E & Hs & _).
  exists r. auto.
Defined.

(** C6: a missing .doc document is reported as not found, not as an
    unsupported type. *)
Lemma unsupported_type_rejected_counterexample :
  match toy_sign {| document_path := "a.doc"%string; signer_name := "Ada"%string;
      signer_email := "ada@example.com"%string; output_path := None; additional_info := [] |}
    {| fs := ∅; km := ada_km; clock := "2026-10-19T10:00:00"%string; entropy := 7 |} with
  | (_, _, inr r) => success r = false /\ message r = "Documento no encontrado"%string
  | _ => False
  end.
Proof. vm_compute. split; reflexivity. Qed.

(** C8: signing a missing document returns a result without a status. *)
Lemma result_status_shape_counterexample :
  match toy_sign ada_req {| fs := ∅; km := ada_km; clock := "2026-10-19T10:00:00"%string;
                            entropy := 7 |} with
  | (_, _, inr r) => success r = false /\ status r = None
  | _ => False
  end.
Proof. vm_compute. split; reflexivity. Qed.


(** ** Witnesses of the further properties *)

Lemma toy_backend_roundtrip : forall pw sk salt,
  load_pem_private_key Toy.backend
    (private_pem Toy.backend sk (if password_truthy pw then pw else None) salt) pw = Some sk.
Proof.
  intros pw [[n e] d] salt. destruct pw as [[|x l]|]; cbn;
    rewrite bool_decide_eq_true_2 by reflexivity; reflexivity.
Qed.

Local Abbreviation toy_md := {| meta_signer_name := JStr "Ada"; meta_signer_email := JStr "ada@example.com";
  signature_date := "2026-10-19T10:00:00"%string; document_hash := JStr "ab";
  signature_algorithm := JStr "RSA-PSS with SHA-256"; key_fingerprint := JNull;
  meta_additional_info := JObj [] |}.
Local Abbreviation both_st := {| fs := <["a.txt"%string := EFile (str_bytes "abc")]>
    (<["a.txt.sig"%string := EFile []]> ∅);
  km := ada_km; clock := "2026-10-19T10:00:00"%string; entropy := 0 |}.
Local Abbreviation opaque_req := {| document_path := "a.txt"%string; signer_name := "Ada"%string;
  signer_email := "ada@example.com"%string; output_path := None;
  additional_info := [("x"%string, JOpaque)] |}.
Local Abbreviation key_st0 := {| fs := ∅; km := KeyManager_new;
  clock := "2026-10-19T10:00:00"%string; entropy := 7 |}.
Local Abbreviation gen_pub := {| rsa_n := 3233; rsa_e := 65537 |}.

(** Witness of [verify_document_either_path]: a.txt and a.txt.sig. *)
Lemma verify_document_either_path_witness :
  ends_with ".sig" "a.txt" = false /\ fs both_st !! "a.txt"%string <> None /\
  fs both_st !! ("a.txt" ++ ".sig")%string <> None /\
  toy_verify (verify_request ("a.txt" ++ ".sig")) both_st = toy_verify (verify_request "a.txt") both_st.
Proof.
  split; [reflexivity|]. split; [vm_compute; discriminate|]. split; [vm_compute; discriminate|].
  apply (verify_document_either_path Toy.fromisoformat Toy.pss_verify
           (Toy.load_pem_public_key [ada_pub; other_pub]) "a.txt" both_st);
    [reflexivity | vm_compute; discriminate | vm_compute; discriminate].
Defined.



(** Witness of [sign_document_success_metadata]: Ada signs a.txt. *)
Lemma sign_document_success_metadata_witness :
  exists s' ev r, toy_sign ada_req ada_st0 = (s', ev, inr r) /\ success r = true /\
    signed_file_path r = Some "a.txt.sig"%string.
Proof.
  destruct (toy_sign ada_req ada_st0) as [[s' ev] [e|r]] eqn:E; [vm_compute in E; discriminate E|].
  assert (Hs : success r = true) by (vm_compute in E; injection E; intros; subst; reflexivity).
  destruct (sign_document_success_metadata Toy.isoformat Toy.pss_sign ada_req ada_st0 s' ev r E Hs)
    as (b & dt & md & sigd & out & _ & _ & _ & _ & _ & Hp & _).
  exists s', ev, r. split; [reflexivity|]. split; [exact Hs|exact Hp].
Defined.

(** Witness of [sign_then_extract_metadata]. *)
Lemma sign_then_extract_metadata_witness :
  exists s' ev r, toy_sign ada_req ada_st0 = (s', ev, inr r) /\ success r = true /\
    exists md, extract_metadata_from_signature Toy.fromisoformat "a.txt.sig" s' = (s', [], inr (Some md)).
Proof.
  destruct (toy_sign ada_req ada_st0) as [[s' ev] [e|r]] eqn:E; [vm_compute in E; discriminate E|].
  assert (Hs : success r = true) by (vm_compute in E; injection E; intros; subst; reflexivity).
  destruct (sign_then_extract_metadata Toy.isoformat Toy.fromisoformat Toy.pss_sign toy_iso_roundtrip
              ada_req ada_st0 s' ev r E Hs) as (md & _ & Ex).
  exists s', ev, r. split; [reflexivity|]. split; [exact Hs|]. exists md. exact Ex.
Defined.

(** Witness of [sign_then_signature_info]. *)
Lemma sign_then_signature_info_witness :
  nonempty (output_path ada_req) = None /\
  exists s' ev r, toy_sign ada_req ada_st0 = (s', ev, inr r) /\ success r = true /\
    exists j, get_signature_info Toy.isoformat Toy.fromisoformat "a.txt" s' = (s', [], inr j).
Proof.
  split; [reflexivity|].
  destruct (toy_sign ada_req ada_st0) as [[s' ev] [e|r]] eqn:E; [vm_compute in E; discriminate E|].
  assert (Hs : success r = true) by (vm_compute in E; injection E; intros; subst; reflexivity).
  destruct (sign_then_signature_info Toy.isoformat Toy.fromisoformat Toy.pss_sign toy_iso_roundtrip
              ada_req ada_st0 s' ev r E Hs ltac:(reflexivity)) as (b & md & _ & _ & Ex).
  exists s', ev, r. split; [reflexivity|]. split; [exact Hs|]. eexists. exact Ex.
Defined.

(** Witness of [generate_and_save_keys_writes]: keys/private.pem and
    keys/public.pem on an empty file system. *)
Lemma generate_and_save_keys_writes_witness :
  ("keys/private.pem" <> "keys/public.pem")%string /\
  ~ In "keys/private.pem"%string (parent_dirs "keys/public.pem") /\
  ~ In "keys/public.pem"%string (parent_dirs "keys/private.pem") /\
  exists f, generate_and_save_keys Toy.backend "keys/private.pem" "keys/public.pem" 2048 None key_st0 =
    (set_fs key_st0 f, [], inr true) /\
    f !! "keys/public.pem"%string = Some (EFile (pem_spki gen_pub)).
Proof.
  assert (H1 : ("keys/private.pem" <> "keys/public.pem")%string) by discriminate.
  assert (H2 : ~ In "keys/private.pem"%string (parent_dirs "keys/public.pem"))
    by (vm_compute; intros [H|H]; [discriminate H|exact H]).
  assert (H3 : ~ In "keys/public.pem"%string (parent_dirs "keys/private.pem"))
    by (vm_compute; intros [H|H]; [discriminate H|exact H]).
  assert (H4 : fs key_st0 !! "keys/private.pem"%string <> Some EDir) by (vm_compute; discriminate).
  assert (H5 : fs key_st0 !! "keys/public.pem"%string <> Some EDir) by (vm_compute; discriminate).
  assert (H6 : Forall (no_file_at (fs key_st0))
                 (parent_dirs "keys/private.pem" ++ parent_dirs "keys/public.pem"))
    by (vm_compute; repeat constructor; intros b; discriminate).
  split; [exact H1|]. split; [exact H2|]. split; [exact H3|].
  destruct (generate_and_save_keys_writes Toy.backend "keys/private.pem" "keys/public.pem" None key_st0
              H1 H2 H3 H4 H5 H6)
    as (f & E & _ & Hp & _).
  exists f. split; [exact E|exact Hp].
Defined.

(** Witness of [signer_init_generates]: no key files yet, no password. *)
Lemma signer_init_generates_witness :
  exists s', signer_init Toy.backend "keys/private.pem" "keys/public.pem" None key_st0 = (s', [], inr tt) /\
    public_key (km s') = Some gen_pub.
Proof.
  assert (H0 : fs key_st0 !! "keys/private.pem"%string = None \/ fs key_st0 !! "keys/public.pem"%string = None)
    by (left; vm_compute; reflexivity).
  assert (H1 : ("keys/private.pem" <> "keys/public.pem")%string) by discriminate.
  assert (H2 : ~ In "keys/private.pem"%string (parent_dirs "keys/public.pem"))
    by (vm_compute; intros [H|H]; [discriminate H|exact H]).
  assert (H3 : ~ In "keys/public.pem"%string (parent_dirs "keys/private.pem"))
    by (vm_compute; intros [H|H]; [discriminate H|exact H]).
  assert (H4 : fs key_st0 !! "keys/private.pem"%string <> Some EDir) by (vm_compute; discriminate).
  assert (H5 : fs key_st0 !! "keys/public.pem"%string <> Some EDir) by (vm_compute; discriminate).
  assert (H6 : Forall (no_file_at (fs key_st0))
                 (parent_dirs "keys/private.pem" ++ parent_dirs "keys/public.pem"))
    by (vm_compute; repeat constructor; intros b; discriminate).
  destruct (signer_init_generates Toy.backend "keys/private.pem" "keys/public.pem" None key_st0
              H0 H1 H2 H3 H4 H5 H6 (toy_backend_roundtrip None)) as (s' & E & Hkm & _).
  exists s'. split; [exact E|]. rewrite Hkm. reflexivity.
Defined.

(** Witness of [signer_init_existing_keys]: both key files present. *)
Lemma signer_init_existing_keys_witness :
  exists s', signer_init Toy.backend "priv.pem" "pub.pem" None
      {| fs := <["priv.pem"%string := EFile [3233; 65537; 5]]> (<["pub.pem"%string := EFile []]> ∅);
         km := KeyManager_new; clock := "2026-10-19T10:00:00"%string; entropy := 0 |} =
    (s', [], inr tt).
Proof.
  rewrite signer_init_existing_keys by (vm_compute; discriminate).
  vm_compute. eexists. reflexivity.
Defined.

(** Witness of [save_then_load_public_key]: Ada's public key to
    keys/public.pem, read back by a fresh key manager. *)
Lemma save_then_load_public_key_witness :
  exists s', save_public_key "keys/public.pem" {| fs := ∅; km := ada_km;
      clock := "2026-10-19T10:00:00"%string; entropy := 0 |} = (s', [], inr true) /\
    load_public_key (Toy.load_pem_public_key [ada_pub]) "keys/public.pem" (set_km s' KeyManager_new) =
      (set_km s' (set_public_key KeyManager_new ada_pub), [], inr (Some ada_pub)).
Proof.
  apply save_then_load_public_key; [reflexivity | vm_compute; discriminate
    | vm_compute; repeat constructor; intros b; discriminate | vm_compute; reflexivity].
Defined.

(** Witness of [save_public_key_blocked]: a file named keys. *)
Lemma save_public_key_blocked_witness :
  exists f, save_public_key "keys/public.pem" {| fs := <["keys"%string := EFile [1]]> ∅; km := ada_km;
      clock := "2026-10-19T10:00:00"%string; entropy := 0 |} =
    (set_fs {| fs := <["keys"%string := EFile [1]]> ∅; km := ada_km;
               clock := "2026-10-19T10:00:00"%string; entropy := 0 |} f, [], inr false).
Proof.
  destruct (save_public_key_blocked "keys/public.pem"
              {| fs := <["keys"%string := EFile [1]]> ∅; km := ada_km;
                 clock := "2026-10-19T10:00:00"%string; entropy := 0 |} ada_pub "keys" [1]
              ltac:(reflexivity) ltac:(vm_compute; left; reflexivity) ltac:(vm_compute; reflexivity))
    as (f & E & _).
  exists f. exact E.
Defined.

(** Witness of [fresh_signer_verifier_key]. *)
Lemma fresh_signer_verifier_key_witness :
  exists s1 s2, signer_init Toy.backend "keys/private.pem" "keys/public.pem" None key_st0 = (s1, [], inr tt) /\
    verifier_init (Toy.load_pem_public_key [gen_pub]) (Some "keys/public.pem"%string) s1 = (s2, [], inr tt) /\
    public_key (km s2) = public_key (km s1).
Proof.
  assert (H0 : fs key_st0 !! "keys/private.pem"%string = None \/ fs key_st0 !! "keys/public.pem"%string = None)
    by (left; vm_compute; reflexivity).
  assert (H1 : ("keys/private.pem" <> "keys/public.pem")%string) by discriminate.
  assert (H2 : ~ In "keys/private.pem"%string (parent_dirs "keys/public.pem"))
    by (vm_compute; intros [H|H]; [discriminate H|exact H]).
  assert (H3 : ~ In "keys/public.pem"%string (parent_dirs "keys/private.pem"))
    by (vm_compute; intros [H|H]; [discriminate H|exact H]).
  assert (H4 : fs key_st0 !! "keys/private.pem"%string <> Some EDir) by (vm_compute; discriminate).
  assert (H5 : fs key_st0 !! "keys/public.pem"%string <> Some EDir) by (vm_compute; discriminate).
  assert (H6 : Forall (no_file_at (fs key_st0))
                 (parent_dirs "keys/private.pem" ++ parent_dirs "keys/public.pem"))
    by (vm_compute; repeat constructor; intros b; discriminate).
  assert (H7 : Toy.load_pem_public_key [gen_pub]
                 (pem_spki (priv_public (rsa_generate Toy.backend 2048 (entropy key_st0)))) =
               Some (priv_public (rsa_generate Toy.backend 2048 (entropy key_st0))))
    by (vm_compute; reflexivity).
  destruct (fresh_signer_verifier_key (Toy.load_pem_public_key [gen_pub]) Toy.backend
              "keys/private.pem" "keys/public.pem" None key_st0
              H0 H1 H2 H3 H4 H5 H6 (toy_backend_roundtrip None) ltac:(discriminate) H7)
    as (s1 & s2 & E1 & E2 & _ & Hk & _).
  exists s1, s2. auto.
Defined.

(** Witness of [to_dict_from_dict_roundtrip]. *)
Lemma to_dict_from_dict_roundtrip_witness :
  from_dict Toy.fromisoformat (to_dict Toy.isoformat toy_md) = inr toy_md.
Proof. exact (to_dict_from_dict_roundtrip Toy.isoformat Toy.fromisoformat toy_iso_roundtrip toy_md). Defined.

(** Witness of [from_dict_requires]: the dict of [to_dict]. *)
Lemma from_dict_requires_witness :
  exists kvs, to_dict Toy.isoformat toy_md = JObj kvs /\
    Forall (fun k => dict_lookup k kvs <> None)
      ["signer_name"; "signer_email"; "signature_date"; "document_hash"]%string.
Proof.
  apply (from_dict_requires Toy.fromisoformat (to_dict Toy.isoformat toy_md) toy_md).
  vm_compute. reflexivity.
Defined.
